(** * Student dashboard: normalisation, trend projection, aggregation, status

    A shallow embedding of [main.py]: the value normaliser
    ([normalize_value]), the radar and grade-point charts
    ([create_radar_chart], [create_gpa_chart]), the help-status card
    ([display_help_status]), the hardship and awards cards
    ([display_poverty_info], [display_awards_info]), the cohort statistics
    of the overview tab, the coercions that [main] applies at load and
    before it draws a chart, and the average and the detailed scores that
    it shows under the charts.

    - Numbers.  Python's [int] and finite [float] values are rationals with
      exact arithmetic; the float NaN is a value of its own; infinities and
      rounding are not modelled.
    - Objects.  A cell is [None], a NaN, a number or a text.  Of the
      identity of objects only what the program tests is kept: whether a
      NaN is the object [np.nan].
    - Containers.  A record (a pandas row or a dict) is a finite map from
      field names to cells, a cohort (a DataFrame) a finite map from column
      names to columns.
    - Exceptions.  A function that can raise returns a [result].
    - Output.  A chart is the list of its traces; what is only written to
      the page ([st.write], [st.warning], layout) is left out.
    - Libraries.  [pd.isna], [pd.to_numeric], [Series.mean], [np.arange],
      [np.polyfit] and [np.polyval] are modelled by what their
      documentation says they return; what [float] and [pd.to_numeric] make
      of a text is a parameter ([TextNumbers]). *)

From Stdlib Require Import QArith Qminmax Lqa Lia List String Ascii.
From stdpp Require Import base option list gmap strings pretty.
Import ListNotations.

Local Open Scope string_scope.
Local Open Scope list_scope.

(** ** Values *)

(** A Python float or int as the arithmetic sees it. *)
Inductive num : Type :=
| Fin (q : Q)
| NaN.

(** A cell of a record.  [VNaN] carries the one thing about a NaN object
    that Python code can observe besides its being a NaN: whether it is the
    very object [np.nan] ([x is np.nan]).  A NaN made by [float('nan')], by
    arithmetic, or read out of a float64 column is a NaN, but another
    object. *)
Inductive pyval : Type :=
| VNone
| VNaN (is_np_nan : bool)
| VNum (q : Q)
| VStr (s : string).

Definition np_nan : pyval := VNaN true.

(** A number handed back to Python code as an object: a NaN that comes out
    of a computation is a fresh object. *)
Definition of_num (n : num) : pyval :=
  match n with
  | Fin q => VNum q
  | NaN => VNaN false
  end.

(** ** Exceptions *)

Inductive exn : Type :=
| TypeError
| ZeroDivisionError
| IndexError
| KeyError (key : string).

Inductive result (A : Type) : Type :=
| Ok (a : A)
| Raise (e : exn).
Arguments Ok {A} a.
Arguments Raise {A} e.

#[global] Instance result_ret : MRet result := fun A a => Ok a.

#[global] Instance result_bind : MBind result := fun A B k r =>
  match r with
  | Ok a => k a
  | Raise e => Raise e
  end.

(** ** Built-ins used by the program *)

(** [pd.isna] / [pd.notna] on a scalar. *)
Definition pd_isna (v : pyval) : bool :=
  match v with
  | VNone | VNaN _ => true
  | VNum _ | VStr _ => false
  end.

Definition pd_notna (v : pyval) : bool := negb (pd_isna v).

(** The operand of an arithmetic operator: [None] and strings are not
    numbers. *)
Definition to_num (v : pyval) : result num :=
  match v with
  | VNum q => Ok (Fin q)
  | VNaN _ => Ok NaN
  | VNone | VStr _ => Raise TypeError
  end.

(** [a - b]. *)
Definition py_sub (a b : pyval) : result num :=
  x ← to_num a;
  y ← to_num b;
  match x, y with
  | Fin p, Fin q => Ok (Fin (p - q))
  | _, _ => Ok NaN
  end.

(** [x / y] on Python's own numbers: a zero divisor raises, also under a
    NaN.  (A numpy scalar divided by zero gives an infinity or a NaN with a
    warning instead; every call in the program has bounds that differ, so
    the program itself never divides by zero.) *)
Definition num_div (x y : num) : result num :=
  match y with
  | Fin q =>
      if Qeq_bool q 0 then Raise ZeroDivisionError
      else match x with
           | Fin p => Ok (Fin (p / q))
           | NaN => Ok NaN
           end
  | NaN => Ok NaN
  end.

(** [x * y]. *)
Definition num_mul (x y : num) : num :=
  match x, y with
  | Fin p, Fin q => Fin (p * q)
  | _, _ => NaN
  end.

(** [x < y]; every comparison with a NaN is false. *)
Definition num_lt (x y : num) : bool :=
  match x, y with
  | Fin p, Fin q => negb (Qle_bool q p)
  | _, _ => false
  end.

(** [min(a, b)] and [max(a, b)] of two arguments: the first one is kept
    unless the second is strictly smaller (larger). *)
Definition py_min (a b : num) : num := if num_lt b a then b else a.
Definition py_max (a b : num) : num := if num_lt a b then b else a.

(** ** normalize_value *)

Definition normalize_value (value min_val max_val : pyval) : result num :=
  if pd_isna value then Ok (Fin 0)
  else
    d ← py_sub value min_val;
    w ← py_sub max_val min_val;
    r ← num_div d w;
    Ok (py_max (Fin 0) (py_min (Fin 100) (num_mul r (Fin 100)))).

(** The fraction of the range that [normalize_value] clamps, on finite
    numbers. *)
Definition scaled (v mn mx : Q) : Q := (v - mn) / (mx - mn) * 100.

Definition clamp_percent (x : num) : num :=
  py_max (Fin 0) (py_min (Fin 100) x).


(** ** Text that stands for a number

    What [float(s)] and [pd.to_numeric(s, errors='coerce')] make of a
    string is decided by Python and pandas, not by this program: it is an
    interface the program is used with.  [float_of_str s] is [None] when
    [float(s)] raises [ValueError]; [numeric_of_str s] is [NaN] when pandas
    coerces [s] to a missing value.  Texts whose float is not finite are
    outside the model. *)
Class TextNumbers : Type := {
  float_of_str : string -> option Q;
  numeric_of_str : string -> num
}.

(** *** Plain decimal literals

    An instance for worked examples: an optional sign, digits, an optional
    fraction, nothing else. *)
Definition digit (c : ascii) : option Z :=
  let n := Z.of_N (N_of_ascii c) in
  if ((48 <=? n) && (n <=? 57))%Z then Some (n - 48)%Z else None.

Fixpoint read_digits (s : string) (acc : Z) (k : nat) : Z * nat * string :=
  match s with
  | String c s' =>
      match digit c with
      | Some d => read_digits s' (10 * acc + d)%Z (S k)
      | None => (acc, k, s)
      end
  | EmptyString => (acc, k, s)
  end.

Definition parse_unsigned (s : string) : option Q :=
  let '(i, ki, rest) := read_digits s 0%Z 0%nat in
  match rest with
  | EmptyString => if Nat.eqb ki 0 then None else Some (inject_Z i)
  | String "."%char rest' =>
      let '(f, kf, rest'') := read_digits rest' 0%Z 0%nat in
      match rest'' with
      | EmptyString =>
          if Nat.eqb (ki + kf) 0 then None
          else Some (inject_Z i + inject_Z f / inject_Z (10 ^ Z.of_nat kf))%Q
      | _ => None
      end
  | _ => None
  end.

Definition parse_decimal (s : string) : option Q :=
  match s with
  | String "-"%char s' => option_map Qopp (parse_unsigned s')
  | String "+"%char s' => parse_unsigned s'
  | _ => parse_unsigned s
  end.

Definition decimal_text : TextNumbers := {|
  float_of_str := parse_decimal;
  numeric_of_str := fun s =>
    match parse_decimal s with
    | Some q => Fin q
    | None => NaN
    end
|}.

(** ** Records and cohorts *)

(** [student_data.get(key, default)], on a dict and on a pandas row
    alike. *)
Definition get (student_data : gmap string pyval) (key : string)
    (dflt : pyval) : pyval :=
  match student_data !! key with
  | Some v => v
  | None => dflt
  end.

(** [df[col]]: the column, or [KeyError] when the cohort has none of that
    name. *)
Definition df_getitem (df : gmap string (list pyval)) (col : string)
    : result (list pyval) :=
  match df !! col with
  | Some c => Ok c
  | None => Raise (KeyError col)
  end.

(** ** Record aggregator: [pd.to_numeric(..., errors='coerce').mean()] *)

Definition to_numeric `{TextNumbers} (v : pyval) : num :=
  match v with
  | VNum q => Fin q
  | VStr s => numeric_of_str s
  | VNone | VNaN _ => NaN
  end.

Definition finite_values (s : list num) : list Q :=
  omap (fun n => match n with Fin q => Some q | NaN => None end) s.

Definition Qsum (l : list Q) : Q := fold_right Qplus 0%Q l.

Definition Qlen {A : Type} (l : list A) : Q := inject_Z (Z.of_nat (length l)).

(** [Series.mean()]: missing entries are skipped; with nothing left the
    mean is NaN. *)
Definition series_mean (s : list num) : num :=
  match finite_values s with
  | [] => NaN
  | q :: qs => Fin (Qsum (q :: qs) / Qlen (q :: qs))
  end.

Definition column_mean `{TextNumbers} (col : list pyval) : num :=
  series_mean (List.map to_numeric col).

(** [pd.to_numeric(df[col], errors='coerce').mean() if col in df else d],
    and the same test written [if col in df.columns: ... else: ...]. *)
Definition class_mean_or `{TextNumbers} (df : gmap string (list pyval))
    (col : string) (otherwise : num) : num :=
  match df !! col with
  | Some c => column_mean c
  | None => otherwise
  end.

(** ** create_radar_chart *)

Record polar_trace : Type := {
  pname : string;
  r : list num;
  theta : list string;
  customdata : list pyval
}.

Definition categories : list string :=
  ["德育"; "智育"; "体测"; "附加分"; "总分"].

(** The five raw values of a student, with the defaults of [.get]. *)
Definition actual_values (student_data : gmap string pyval) : list pyval :=
  [ get student_data "德育" (VNum 0);
    get student_data "智育" (VNum 0);
    get student_data "体测成绩" (VNum 0);
    get student_data "附加分" (get student_data "23-24附加分" (VNum 0));
    get student_data "测评总分" (VNum 0) ].

(** The five cohort means; an absent column counts as 0. *)
Definition class_avg `{TextNumbers} (df : gmap string (list pyval)) : list num :=
  [ class_mean_or df "德育" (Fin 0);
    class_mean_or df "智育" (Fin 0);
    class_mean_or df "体测成绩" (Fin 0);
    class_mean_or df "附加分" (class_mean_or df "23-24附加分" (Fin 0));
    class_mean_or df "测评总分" (Fin 0) ].

(** Five values normalised against the fixed table of bounds, one pair per
    category, left to right; the first exception ends the evaluation. *)
Definition normalize_profile (values : list pyval) : result (list num) :=
  match values with
  | [v0; v1; v2; v3; v4] =>
      n0 ← normalize_value v0 (VNum 12) (VNum 15);
      n1 ← normalize_value v1 (VNum 50) (VNum 100);
      n2 ← normalize_value v2 (VNum 60) (VNum 120);
      n3 ← normalize_value v3 (VNum (-1)) (VNum 6);
      n4 ← normalize_value v4 (VNum 50) (VNum 110);
      Ok [n0; n1; n2; n3; n4]
  | _ => Raise IndexError
  end.

(** [l + [l[0]]], which closes the polygon. *)
Definition close_shape {A : Type} (l : list A) : list A := l ++ firstn 1 l.

Definition create_radar_chart `{TextNumbers} (student_data : gmap string pyval)
    (df : option (gmap string (list pyval))) : result (list polar_trace) :=
  let actual := actual_values student_data in
  normalized_values ← normalize_profile actual;
  class_traces ←
    match df with
    | Some df =>
        let avg := class_avg df in
        normalized_class_avg ← normalize_profile (List.map of_num avg);
        Ok [ {| pname := "班级平均";
                r := close_shape normalized_class_avg;
                theta := close_shape categories;
                customdata := close_shape (List.map of_num avg) |} ]
    | None => Ok []
    end;
  Ok (class_traces ++
      [ {| pname := "个人得分";
           r := close_shape normalized_values;
           theta := close_shape categories;
           customdata := close_shape actual |} ]).

(** ** Trend projector: [np.arange], [np.polyfit(x, y, 1)], [np.polyval] *)

(** [np.arange(n)]: the positions 0, 1, ..., n-1. *)
Definition arange (n : nat) : list Q :=
  List.map (fun i => inject_Z (Z.of_nat i)) (seq 0 n).

(** The moments of a list of points that a straight-line fit needs. *)
Definition sum_x (pts : list (Q * Q)) : Q := Qsum (List.map fst pts).
Definition sum_y (pts : list (Q * Q)) : Q := Qsum (List.map snd pts).
Definition sum_xx (pts : list (Q * Q)) : Q :=
  Qsum (List.map (fun p => fst p * fst p)%Q pts).
Definition sum_xy (pts : list (Q * Q)) : Q :=
  Qsum (List.map (fun p => fst p * snd p)%Q pts).

(** [np.polyfit(x, y, 1)] in exact arithmetic: the solution of the normal
    equations of the straight-line fit, highest degree first (slope, then
    intercept), as numpy returns it. *)
Definition polyfit1 (xs ys : list Q) : Q * Q :=
  let pts := combine xs ys in
  let n := Qlen pts in
  let slope := ((n * sum_xy pts - sum_x pts * sum_y pts)
                / (n * sum_xx pts - sum_x pts * sum_x pts))%Q in
  let intercept := ((sum_y pts - slope * sum_x pts) / n)%Q in
  (slope, intercept).

(** [np.polyval(coeffs, x)] for two coefficients. *)
Definition polyval (coeffs : Q * Q) (x : Q) : Q :=
  (fst coeffs * x + snd coeffs)%Q.

(** What "least squares" asks of a line [c]: the sum, over the points, of
    the squared distance between the value and the line.  The program does
    not compute it; it is the yardstick the fit is measured with. *)
Definition squared_error (pts : list (Q * Q)) (c : Q * Q) : Q :=
  Qsum (List.map (fun p => (snd p - polyval c (fst p)) * (snd p - polyval c (fst p)))%Q
                 pts).

(** A least-squares line of the points: no line has a smaller squared
    error. *)
Definition least_squares_line (pts : list (Q * Q)) (c : Q * Q) : Prop :=
  forall c' : Q * Q, (squared_error pts c <= squared_error pts c')%Q.

(** Clamping as the specification words it: the nearest value of the
    range. *)
Definition clamp_to_range (lo hi x : Q) : Q := Qmax lo (Qmin hi x).

Definition sum_yy (pts : list (Q * Q)) : Q :=
  Qsum (List.map (fun p => snd p * snd p)%Q pts).

(** [max(0, min(4, x))]. *)
Definition clamp_gpa (x : num) : num := py_max (Fin 0) (py_min (Fin 4) x).

(** ** create_gpa_chart *)

Record trace : Type := {
  name : string;
  xs : list string;
  ys : list num
}.

(** The local variables of [create_gpa_chart] that its steps read and
    write: the two lists of the series and the traces added to the figure
    so far. *)
Record chart_state : Type := {
  semesters : list string;
  gpas : list Q;
  data : list trace
}.

Definition semester_names : list string :=
  ["第一学期"; "第二学期"; "第三学期"].

(** One turn of the collecting loop.  The label is appended as soon as the
    value is present; the value only when it converts: [int] and [float]
    are taken as they are, anything else goes through [float()], and a
    conversion that raises is caught and leaves the values as they were.
    ([None] and NaN do not pass [pd.notna].) *)
Definition collect_semester `{TextNumbers} (student_data : gmap string pyval)
    (st : chart_state) (sem_num : string) : chart_state :=
  let gpa_key := sem_num +:+ "绩点" in
  match student_data !! gpa_key with
  | Some v =>
      if pd_notna v then
        let st' := {| semesters := semesters st ++ [sem_num];
                      gpas := gpas st;
                      data := data st |} in
        let converted :=
          match v with
          | VNum q => Some q
          | VStr s => float_of_str s
          | VNone | VNaN _ => None
          end in
        match converted with
        | Some gpa_value =>
            {| semesters := semesters st';
               gpas := gpas st' ++ [gpa_value];
               data := data st' |}
        | None => st'
        end
      else st
  | None => st
  end.

Definition collect_gpas `{TextNumbers} (student_data : gmap string pyval)
    : chart_state :=
  fold_left (collect_semester student_data) semester_names
    {| semesters := []; gpas := []; data := [] |}.

Definition default_gpas : list Q := [3.2; 3.5; 3.1]%Q.

(** [if not semesters or len(semesters) < 2:] the sample series takes the
    place of the collected one. *)
Definition use_default (st : chart_state) : bool :=
  match semesters st with
  | [] => true
  | _ => Nat.ltb (length (semesters st)) 2
  end.

Definition with_fallback (st : chart_state) : chart_state :=
  if use_default st then
    {| semesters := semester_names; gpas := default_gpas; data := data st |}
  else st.

Definition add_trace (t : trace) (st : chart_state) : chart_state :=
  {| semesters := semesters st; gpas := gpas st; data := data st ++ [t] |}.

Definition add_personal (st : chart_state) : chart_state :=
  add_trace {| name := "个人绩点";
               xs := semesters st;
               ys := List.map Fin (gpas st) |} st.

(** The cohort's mean per period; 3.0 where the cohort has no such
    column. *)
Definition add_class_average `{TextNumbers}
    (df : option (gmap string (list pyval))) (st : chart_state) : chart_state :=
  match df with
  | Some df =>
      let class_avg_gpas :=
        List.map (fun sem_num => class_mean_or df (sem_num +:+ "绩点") (Fin 3.0))
                 (semesters st) in
      add_trace {| name := "班级平均";
                   xs := semesters st;
                   ys := class_avg_gpas |} st
  | None => st
  end.

(** [f'第{n}学期(预测)']. *)
Definition prediction_label (n : nat) : string :=
  "第" +:+ pretty n +:+ "学期(预测)".

(** The trend block: with two values or more, the fitted line over the
    positions of the values and one projected point. *)
Definition add_trend (st : chart_state) : chart_state :=
  if Nat.leb 2 (length (gpas st)) then
    let x_numeric := arange (length (gpas st)) in
    let coeffs := polyfit1 x_numeric (gpas st) in
    let trend_line := List.map (polyval coeffs) x_numeric in
    let next_semester := prediction_label (length (gpas st) + 1) in
    let next_gpa := clamp_gpa (Fin (polyval coeffs (Qlen (gpas st)))) in
    let all_semesters := semesters st ++ [next_semester] in
    let all_trend := List.map Fin trend_line ++ [next_gpa] in
    add_trace {| name := "预测绩点"; xs := [next_semester]; ys := [next_gpa] |}
      (add_trace {| name := "趋势预测"; xs := all_semesters; ys := all_trend |}
         st)
  else st.

(** The figure handed to the rendering layer: the traces, and the two ends
    of the reference line drawn at 3.0. *)
Record gpa_figure : Type := {
  fig_data : list trace;
  line_x0 : string;
  line_x1 : string
}.

Definition reference_line (sems : list string) : result (string * string) :=
  match sems with
  | [] => Raise IndexError
  | first :: _ =>
      if Nat.ltb 1 (length sems) then Ok (first, List.last sems first)
      else Ok (first, first)
  end.

Definition gpa_chart_state `{TextNumbers} (student_data : gmap string pyval)
    (df : option (gmap string (list pyval))) : chart_state :=
  add_trend
    (add_class_average df
       (add_personal (with_fallback (collect_gpas student_data)))).

Definition create_gpa_chart `{TextNumbers} (student_data : gmap string pyval)
    (df : option (gmap string (list pyval))) : result gpa_figure :=
  let st := gpa_chart_state student_data df in
  '(x0, x1) ← reference_line (semesters st);
  Ok {| fig_data := data st; line_x0 := x0; line_x1 := x1 |}.

(** ** display_help_status *)

(** [a is b], as far as the program can tell objects apart: one [None], and
    the [np.nan] object against itself.  For numbers and strings identity
    adds nothing to [==]. *)
Definition py_is (a b : pyval) : bool :=
  match a, b with
  | VNone, VNone => true
  | VNaN true, VNaN true => true
  | _, _ => false
  end.

(** [a == b]; a NaN equals nothing, itself included. *)
Definition py_eq (a b : pyval) : bool :=
  match a, b with
  | VNone, VNone => true
  | VNum p, VNum q => Qeq_bool p q
  | VStr s, VStr t => String.eqb s t
  | _, _ => false
  end.

(** [x in l] on a list: some element is the same object or is equal. *)
Definition py_in (x : pyval) (l : list pyval) : bool :=
  existsb (fun e => py_is x e || py_eq x e) l.

(** Truth value of an object in an [if]. *)
Definition py_truthy (v : pyval) : bool :=
  match v with
  | VNone => false
  | VNaN _ => true
  | VNum q => negb (Qeq_bool q 0)
  | VStr s => negb (String.eqb s "")
  end.

Definition help_field : string := "有无需要学院协助解决的困难".

(** What the card shows: the classification, the difficulty when one is
    printed, and the psychological status. *)
Record help_card : Type := {
  help_needed : bool;
  difficulty_shown : option pyval;
  psychological_status : pyval
}.

Definition display_help_status (student_data : gmap string pyval) : help_card :=
  let needed :=
    negb (py_in (get student_data help_field VNone)
                [VNone; VStr "无"; np_nan]) in
  let difficulty := get student_data "有何困难" (VStr "未详细说明") in
  {| help_needed := needed;
     difficulty_shown :=
       if needed && py_truthy difficulty
                 && negb (py_eq difficulty (VStr "未详细说明"))
       then Some difficulty else None;
     psychological_status := get student_data "最新心理等级" (VStr "未评估") |}.

(** ** Cohort statistics of the overview tab *)

(** [len(df[df[c].notna() & (df[c] != '无')])]. *)
Definition help_needed_count (df : gmap string (list pyval)) : result nat :=
  col ← df_getitem df help_field;
  Ok (length (List.filter
                (fun v => pd_notna v && negb (py_eq v (VStr "无"))) col)).

(** [len(df[df['人民奖学金'].notna() | df['助学金'].notna()])]. *)
Definition award_count (df : gmap string (list pyval)) : result nat :=
  scholarship ← df_getitem df "人民奖学金";
  grant ← df_getitem df "助学金";
  Ok (length (List.filter (fun p => pd_notna (fst p) || pd_notna (snd p))
                (combine scholarship grant))).

(** The two counts, in the order the tab computes them. *)
Definition cohort_statistics (df : gmap string (list pyval))
    : result (nat * nat) :=
  helped ← help_needed_count df;
  awarded ← award_count df;
  Ok (helped, awarded).

(** ** The tabs of [main] that draw the two charts *)

(** [student_data_copy = selected_student.copy()] followed by
    [student_data_copy[key] = pd.to_numeric(student_data_copy[key],
    errors='coerce')] for every listed key that the record has: the charts
    are drawn from a coerced copy, the selected record stays as loaded. *)
Definition coerce_fields `{TextNumbers} (keys : list string)
    (selected_student : gmap string pyval) : gmap string pyval :=
  fold_left
    (fun student_data_copy key =>
       match student_data_copy !! key with
       | Some v => <[key := of_num (to_numeric v)]> student_data_copy
       | None => student_data_copy
       end)
    keys selected_student.

Definition gpa_keys : list string :=
  ["第一学期绩点"; "第二学期绩点"; "第三学期绩点"].

Definition radar_keys : list string :=
  ["德育"; "智育"; "体测成绩"; "附加分"; "23-24附加分"; "测评总分"].

Definition tab2_gpa_chart `{TextNumbers} (selected_student : gmap string pyval)
    (df : gmap string (list pyval)) : result gpa_figure :=
  create_gpa_chart (coerce_fields gpa_keys selected_student) (Some df).

Definition tab3_radar_chart `{TextNumbers} (selected_student : gmap string pyval)
    (df : gmap string (list pyval)) : result (list polar_trace) :=
  create_radar_chart (coerce_fields radar_keys selected_student) (Some df).

(** A cell that arithmetic accepts: a number or a NaN. *)
Definition is_number (v : pyval) : bool :=
  match v with
  | VNum _ | VNaN _ => true
  | VNone | VStr _ => false
  end.

(** ** display_poverty_info and display_awards_info *)

(** [if value and pd.notna(value):] the value is written; otherwise the
    text "无" is written in its place, here [None]. *)
Definition written (value : pyval) : option pyval :=
  if py_truthy value && pd_notna value then Some value else None.

Definition display_poverty_info (student_data : gmap string pyval)
    : list (string * option pyval) :=
  let poverty_levels :=
    [ ("第一学年困难等级", get student_data "第一学年困难等级" VNone);
      ("第二学年困难等级", get student_data "第二学年困难等级" VNone);
      ("困难保障人群", get student_data "困难保障人群" VNone) ] in
  List.map (fun level => (fst level, written (snd level))) poverty_levels.

(** The rows of the awards card, and whether the notice "no award yet" is
    shown under them. *)
Record awards_card : Type := {
  award_rows : list (string * option pyval);
  no_awards_notice : bool
}.

Definition display_awards_info (student_data : gmap string pyval)
    : awards_card :=
  let awards :=
    [ ("人民奖学金", get student_data "人民奖学金" VNone);
      ("助学金", get student_data "助学金" (get student_data "助学金.1" VNone));
      ("获得奖项", get student_data "奖项" VNone) ] in
  let has_awards :=
    existsb (fun award => py_truthy (snd award) && pd_notna (snd award)) awards in
  {| award_rows := List.map (fun award => (fst award, written (snd award))) awards;
     no_awards_notice := negb has_awards |}.

(** ** More of [main] *)

(** The columns that are made numeric when a sheet is loaded. *)
Definition numeric_columns : list string :=
  ["德育"; "智育"; "体测成绩"; "附加分"; "23-24附加分"; "测评总分";
   "第一学期绩点"; "第二学期绩点"; "第三学期绩点"].

(** [for col in numeric_columns: if col in df.columns:
    df[col] = pd.to_numeric(df[col], errors='coerce')]. *)
Definition coerce_columns `{TextNumbers} (cols : list string)
    (df : gmap string (list pyval)) : gmap string (list pyval) :=
  fold_left
    (fun df col =>
       match df !! col with
       | Some c => <[col := List.map (fun v => of_num (to_numeric v)) c]> df
       | None => df
       end)
    cols df.

(** The operands of [np.mean]: every cell must be a number. *)
Fixpoint to_nums (cells : list pyval) : result (list num) :=
  match cells with
  | [] => Ok []
  | v :: cells' => n ← to_num v; ns ← to_nums cells'; Ok (n :: ns)
  end.

(** [np.mean] of a list of cells that is not empty: the sum over the
    count, NaN as soon as one cell is a NaN. *)
Definition np_mean (cells : list pyval) : result num :=
  ns ← to_nums cells;
  if forallb (fun n => match n with Fin _ => true | NaN => false end) ns
  then Ok (Fin (Qsum (finite_values ns) / Qlen ns))
  else Ok NaN.

(** The values the average grade point is taken over: the cells of the
    three periods that are present and not missing, as they are. *)
Definition average_cells (student_data_copy : gmap string pyval) : list pyval :=
  flat_map
    (fun sem_num =>
       match student_data_copy !! (sem_num +:+ "绩点") with
       | Some v => if pd_notna v then [v] else []
       | None => []
       end)
    semester_names.

(** [if gpas: avg_gpa = np.mean(gpas)]: the average that the metric under
    the chart shows, [None] when there is no value and no metric. *)
Definition average_gpa (student_data_copy : gmap string pyval)
    : result (option num) :=
  match average_cells student_data_copy with
  | [] => Ok None
  | gpas => avg_gpa ← np_mean gpas; Ok (Some avg_gpa)
  end.

Definition tab2_average `{TextNumbers} (selected_student : gmap string pyval)
    : result (option num) :=
  average_gpa (coerce_fields gpa_keys selected_student).

(** The five detailed scores under the radar chart: the raw value, and 0
    in place of a missing one. *)
Definition detailed_scores (student_data_copy : gmap string pyval)
    : list (string * pyval) :=
  let metrics :=
    [ ("德育", get student_data_copy "德育" (VNum 0));
      ("智育", get student_data_copy "智育" (VNum 0));
      ("体测", get student_data_copy "体测成绩" (VNum 0));
      ("附加分", get student_data_copy "附加分"
                   (get student_data_copy "23-24附加分" (VNum 0)));
      ("总分", get student_data_copy "测评总分" (VNum 0)) ] in
  List.map (fun m => (fst m, if pd_notna (snd m) then snd m else VNum 0)) metrics.

Definition tab3_detailed_scores `{TextNumbers}
    (selected_student : gmap string pyval) : list (string * pyval) :=
  detailed_scores (coerce_fields radar_keys selected_student).

(** What a detailed score is to show for a cell of the selected record: a
    number as it is, a text as the number that pandas reads it as, and 0
    for a cell that is absent, missing, or a text that is no number. *)
Definition score_shown `{TextNumbers} (cell : option pyval) : pyval :=
  match cell with
  | Some (VNum q) => VNum q
  | Some (VStr t) =>
      match numeric_of_str t with
      | Fin q => VNum q
      | NaN => VNum 0
      end
  | Some VNone | Some (VNaN _) | None => VNum 0
  end.

(** A cell that is not a text. *)
Definition no_text (v : pyval) : bool :=
  match v with
  | VStr _ => false
  | VNone | VNaN _ | VNum _ => true
  end.

(** ** The cohort mean as it is specified

    The entries of a column that are numbers after coercion; what it is for
    a value to be their arithmetic mean (NaN when there is none; otherwise
    the number that, taken as often as there are entries, gives their sum,
    and that therefore lies between any two bounds of the entries); the
    mean of a column of the cohort, with a default for a column that the
    cohort does not have; and a mean with its place on the scale of the
    radar chart. *)
Definition numeric_entries `{TextNumbers} (col : list pyval) : list Q :=
  flat_map (fun v => match to_numeric v with Fin q => [q] | NaN => [] end) col.

Definition arithmetic_mean_of (kept : list Q) (y : num) : Prop :=
  match kept with
  | [] => y = NaN
  | _ :: _ =>
      exists m, y = Fin m /\ (m * Qlen kept == Qsum kept)%Q /\
                forall lo hi, Forall (fun q => lo <= q <= hi)%Q kept ->
                              (lo <= m <= hi)%Q
  end.

Definition cohort_mean `{TextNumbers} (df : gmap string (list pyval))
    (col : string) (absent : num) (y : num) : Prop :=
  match df !! col with
  | Some c => arithmetic_mean_of (numeric_entries c) y
  | None => y = absent
  end.

Definition normalised_mean (a : num) (lo hi : Q) (n : num) : Prop :=
  normalize_value (of_num a) (VNum lo) (VNum hi) = Ok n /\
  (a = NaN -> n = Fin 0).

(** A finite number of the scale 0 .. 100. *)
Definition percentage (n : num) : Prop :=
  exists p, n = Fin p /\ (0 <= p <= 100)%Q.

(** What the cards take for a value worth writing: a text that is not
    empty or a number that is not zero. *)
Definition has_content (v : pyval) : Prop :=
  (exists s, v = VStr s /\ s <> "") \/ (exists q, v = VNum q /\ ~ (q == 0)%Q).

(** ** Worked examples *)

(** A student with the three grade points 3.2, 3.5 and 3.1. *)
Definition sample_student : gmap string pyval :=
  <["第一学期绩点" := VNum 3.2]>
    (<["第二学期绩点" := VNum 3.5]>
       (<["第三学期绩点" := VNum 3.1]> ∅)).

(** A student whose first two grade-point cells hold remarks ("absent",
    "deferred") instead of numbers. *)
Definition ungraded_student : gmap string pyval :=
  <["第一学期绩点" := VStr "缺考"]>
    (<["第二学期绩点" := VStr "缓考"]> ∅).

(** A cohort whose moral-education column holds remarks and a blank. *)
Definition remarks_cohort : gmap string (list pyval) :=
  <["德育" := [VStr "优"; VStr "良"; VNone]]> ∅.

(** A cohort with scores 80, a remark and 90 in one column. *)
Definition scores_cohort : gmap string (list pyval) :=
  <["智育" := [VNum 80; VStr "缺考"; VNum 90]]> ∅.

(** A cohort of one student with a name column only, and that student. *)
Definition names_cohort : gmap string (list pyval) :=
  <["姓名" := [VStr "张三"]]> ∅.

Definition named_student : gmap string pyval :=
  <["姓名" := VStr "张三"]> ∅.

(** A student with grade points 2.0, 2.5 and 3.0, which lie on a line. *)
Definition rising_student : gmap string pyval :=
  <["第一学期绩点" := VNum 2.0]>
    (<["第二学期绩点" := VNum 2.5]>
       (<["第三学期绩点" := VNum 3.0]> ∅)).

(** A student with the two grade points 3.5 and 3.9. *)
Definition two_term_student : gmap string pyval :=
  <["第一学期绩点" := VNum 3.5]>
    (<["第二学期绩点" := VNum 3.9]> ∅).

(** A student with scores, one of them a remark. *)
Definition scored_student : gmap string pyval :=
  <["德育" := VNum 13.5]>
    (<["智育" := VStr "缺考"]>
       (<["测评总分" := VNum 80]> ∅)).

(** A cohort with remarks for moral education, two scores and a remark
    for intellectual education, and grade points of the first period
    only. *)
Definition mixed_cohort : gmap string (list pyval) :=
  <["德育" := [VStr "优"; VNone]]>
    (<["智育" := [VNum 80; VStr "缺考"; VNum 90]]>
       (<["第一学期绩点" := [VNum 3.0; VNum 3.4]]> ∅)).

(** A cohort with a help column of four cells. *)
Definition help_cohort : gmap string (list pyval) :=
  <[help_field := [VStr "无"; VStr "经济困难"; np_nan; VNone]]> ∅.

(** * Properties *)

(** ** The value normaliser *)

Section NormalizeFacts.
Local Open Scope Q_scope.

Lemma num_lt_Fin p q : num_lt (Fin p) (Fin q) = true <-> p < q.
Proof.
  simpl. rewrite negb_true_iff, <- not_true_iff_false, Qle_bool_iff.
  split; [apply Qnot_le_lt | apply Qlt_not_le].
Qed.

Lemma num_lt_Fin_false p q : num_lt (Fin p) (Fin q) = false <-> q <= p.
Proof.
  simpl. rewrite negb_false_iff. apply Qle_bool_iff.
Qed.

Lemma Qeq_bool_false_of_neq (x y : Q) : ~ x == y -> Qeq_bool x y = false.
Proof.
  intros H. apply not_true_iff_false. intros E. apply H.
  now apply Qeq_bool_iff.
Qed.

Lemma normalize_value_isna (value min_val max_val : pyval) :
  pd_isna value = true ->
  normalize_value value min_val max_val = Ok (Fin 0).
Proof.
  intros E. unfold normalize_value. rewrite E. reflexivity.
Qed.

Lemma normalize_value_num (v mn mx : Q) :
  ~ mx - mn == 0 ->
  normalize_value (VNum v) (VNum mn) (VNum mx)
  = Ok (clamp_percent (Fin (scaled v mn mx))).
Proof.
  intros H. unfold normalize_value. simpl.
  unfold mbind, result_bind. simpl.
  rewrite (Qeq_bool_false_of_neq _ _ H). reflexivity.
Qed.

Lemma clamp_percent_Fin (x : Q) :
  exists r, clamp_percent (Fin x) = Fin r /\
            (x <= 0 -> r = 0) /\ (100 <= x -> r = 100) /\
            (0 < x < 100 -> r = x).
Proof.
  unfold clamp_percent, py_min.
  destruct (num_lt (Fin x) (Fin 100)) eqn:E1.
  - apply num_lt_Fin in E1. unfold py_max.
    destruct (num_lt (Fin 0) (Fin x)) eqn:E2.
    + apply num_lt_Fin in E2. exists x. repeat split; intros; try lra; auto.
    + apply num_lt_Fin_false in E2. exists 0. repeat split; intros; try lra; auto.
  - apply num_lt_Fin_false in E1. exists 100.
    split; [reflexivity | repeat split; intros; try lra; auto].
Qed.

Lemma clamp_percent_range (x r : Q) :
  clamp_percent (Fin x) = Fin r -> 0 <= r <= 100.
Proof.
  intros H. destruct (clamp_percent_Fin x) as (r' & E & Hlo & Hhi & Hmid).
  rewrite E in H. injection H as <-.
  destruct (Qlt_le_dec 0 x) as [H0 | H0].
  - destruct (Qlt_le_dec x 100) as [H1 | H1].
    + rewrite Hmid by (split; assumption). lra.
    + rewrite Hhi by assumption. lra.
  - rewrite Hlo by assumption. lra.
Qed.

Lemma clamp_percent_mono (x y r s : Q) :
  x <= y -> clamp_percent (Fin x) = Fin r -> clamp_percent (Fin y) = Fin s ->
  r <= s.
Proof.
  intros Hxy Hx Hy.
  destruct (clamp_percent_Fin x) as (r' & E & Hlo & Hhi & Hmid).
  rewrite E in Hx. injection Hx as <-.
  destruct (clamp_percent_Fin y) as (s' & E' & Hlo' & Hhi' & Hmid').
  rewrite E' in Hy. injection Hy as <-.
  destruct (Qlt_le_dec 0 x) as [H0 | H0];
    [destruct (Qlt_le_dec x 100) as [H1 | H1] |];
    [rewrite Hmid by (split; assumption) | rewrite Hhi by assumption
     | rewrite Hlo by assumption];
    (destruct (Qlt_le_dec 0 y) as [G0 | G0];
     [destruct (Qlt_le_dec y 100) as [G1 | G1] |];
     [rewrite Hmid' by (split; assumption) | rewrite Hhi' by assumption
      | rewrite Hlo' by assumption]); lra.
Qed.

Lemma scaled_le_0 (v mn mx : Q) : mn < mx -> v <= mn -> scaled v mn mx <= 0.
Proof.
  intros Hb Hv. unfold scaled, Qdiv.
  assert (Hk : 0 < / (mx - mn)) by (apply Qinv_lt_0_compat; lra).
  assert (Hd : v - mn <= 0) by lra.
  nra.
Qed.

Lemma scaled_ge_100 (v mn mx : Q) : mn < mx -> mx <= v -> 100 <= scaled v mn mx.
Proof.
  intros Hb Hv. unfold scaled, Qdiv.
  assert (Hk : 0 < / (mx - mn)) by (apply Qinv_lt_0_compat; lra).
  assert (H1 : (mx - mn) * / (mx - mn) == 1) by (apply Qmult_inv_r; lra).
  assert (Hd : 0 <= v - mx) by lra.
  nra.
Qed.

Lemma scaled_mono (v v' mn mx : Q) :
  mn < mx -> v <= v' -> scaled v mn mx <= scaled v' mn mx.
Proof.
  intros Hb Hv. unfold scaled, Qdiv.
  assert (Hk : 0 < / (mx - mn)) by (apply Qinv_lt_0_compat; lra).
  assert (Hd : 0 <= v' - v) by lra.
  nra.
Qed.

End NormalizeFacts.

Section NormalizeClaims.
Local Open Scope Q_scope.

Lemma normalize_value_bounded (v mn mx : Q) :
  mn < mx ->
  exists p, normalize_value (VNum v) (VNum mn) (VNum mx) = Ok (Fin p) /\
            clamp_percent (Fin (scaled v mn mx)) = Fin p.
Proof.
  intros Hb. rewrite normalize_value_num by lra.
  destruct (clamp_percent_Fin (scaled v mn mx)) as (p & E & _).
  exists p. rewrite E. split; reflexivity.
Qed.

(** C1: with [mn < mx], a number at or below [mn] is mapped to 0, a
    number at or above [mx] to 100, every number into [0, 100], and a
    larger number never to a smaller percentage. *)
Theorem normalize_value_clamps_and_is_monotone (v mn mx : Q) :
  mn < mx ->
  exists p,
    normalize_value (VNum v) (VNum mn) (VNum mx) = Ok (Fin p) /\
    0 <= p <= 100 /\
    (v <= mn -> p = 0) /\
    (mx <= v -> p = 100) /\
    forall v', v <= v' ->
      exists p', normalize_value (VNum v') (VNum mn) (VNum mx) = Ok (Fin p')
                 /\ p <= p'.
Proof.
  intros Hb.
  destruct (normalize_value_bounded v mn mx Hb) as (p & Hp & Hc).
  exists p. split; [exact Hp |]. split; [exact (clamp_percent_range _ _ Hc) |].
  destruct (clamp_percent_Fin (scaled v mn mx)) as (p0 & E & Hlo & Hhi & _).
  rewrite E in Hc. injection Hc as ->.
  split; [| split].
  - intros Hv. apply Hlo. now apply scaled_le_0.
  - intros Hv. apply Hhi. now apply scaled_ge_100.
  - intros v' Hvv'.
    destruct (normalize_value_bounded v' mn mx Hb) as (p' & Hp' & Hc').
    exists p'. split; [exact Hp' |].
    apply (clamp_percent_mono (scaled v mn mx) (scaled v' mn mx)); auto.
    now apply scaled_mono.
Qed.

Lemma normalize_value_clamps_and_is_monotone_witness :
  12 < 15 /\
  exists p,
    normalize_value (VNum 13.5) (VNum 12) (VNum 15) = Ok (Fin p) /\
    0 <= p <= 100 /\
    (13.5 <= 12 -> p = 0) /\
    (15 <= 13.5 -> p = 100) /\
    forall v', 13.5 <= v' ->
      exists p', normalize_value (VNum v') (VNum 12) (VNum 15) = Ok (Fin p')
                 /\ p <= p'.
Proof.
  split; [reflexivity |].
  apply (normalize_value_clamps_and_is_monotone 13.5 12 15). reflexivity.
Defined.

(** C8: a missing value, [None] or a NaN, is mapped to 0 whatever the
    bounds are, numbers or not. *)
Theorem normalize_value_missing (value min_val max_val : pyval) :
  pd_isna value = true ->
  normalize_value value min_val max_val = Ok (Fin 0).
Proof.
  intros Hmiss. unfold normalize_value.
  destruct (pd_isna value); [reflexivity | discriminate Hmiss].
Qed.

Lemma normalize_value_missing_witness :
  pd_isna (VNaN false) = true /\
  normalize_value (VNaN false) (VNum 3) (VNum 3) = Ok (Fin 0).
Proof.
  split; [reflexivity |].
  apply (normalize_value_missing (VNaN false) (VNum 3) (VNum 3)). reflexivity.
Defined.

(** C7, as stated, fails: a text where a number is expected is a type
    error, and equal bounds are a division by zero. *)
Lemma normalize_value_can_raise :
  normalize_value (VStr "优") (VNum 50) (VNum 100) = Raise TypeError /\
  normalize_value (VNum 5) (VNum 3) (VNum 3) = Raise ZeroDivisionError.
Proof. split; reflexivity. Qed.

(** C7, as the program has it: a missing value with any bounds, and a
    number with two numbers that differ as bounds, are mapped to a
    percentage in [0, 100] and nothing is raised; and the function is not
    total: it raises a type error exactly when the value is not missing and
    the value or one of the bounds is not a number. *)
Theorem normalize_value_defined (value min_val max_val : pyval) :
  (pd_isna value = true \/
   (exists v lo hi, value = VNum v /\ min_val = VNum lo /\ max_val = VNum hi
                    /\ ~ lo == hi) ->
   exists p, normalize_value value min_val max_val = Ok (Fin p) /\
             0 <= p <= 100) /\
  (normalize_value value min_val max_val = Raise TypeError <->
   pd_isna value = false /\
   (is_number value = false \/ is_number min_val = false
    \/ is_number max_val = false)).
Proof.
  split.
  - intros [Hmiss | (v & lo & hi & -> & -> & -> & Hne)].
    + exists 0. rewrite normalize_value_isna by exact Hmiss.
      split; [reflexivity | lra].
    + rewrite normalize_value_num by (intros E; apply Hne; lra).
      destruct (clamp_percent_Fin (scaled v lo hi)) as (p & E & _).
      exists p. split; [rewrite E; reflexivity |].
      exact (clamp_percent_range _ _ E).
  - assert (Hnum : forall v lo hi,
               normalize_value (VNum v) (VNum lo) (VNum hi)
               = if Qeq_bool (hi - lo) 0 then Raise ZeroDivisionError
                 else Ok (clamp_percent (Fin (scaled v lo hi)))).
    { intros v lo hi. unfold normalize_value. cbn.
      unfold mbind, result_bind. cbn.
      destruct (Qeq_bool (hi - lo) 0); reflexivity. }
    destruct value as [| bv | v | sv];
      destruct min_val as [| bl | lo | sl];
      destruct max_val as [| bh | hi | sh];
      try rewrite Hnum;
      try (split; [intros E; try discriminate E; split; cbn; auto
                  | intros [E1 E2]; try discriminate E1; try reflexivity;
                    destruct E2 as [E2 | [E2 | E2]]; discriminate E2]; fail).
    destruct (Qeq_bool (hi - lo) 0);
      (split; [discriminate |]);
      intros [_ [E | [E | E]]]; discriminate E.
Qed.

Lemma normalize_value_defined_witness :
  (pd_isna (VNum 130) = true \/
   exists v lo hi, VNum 130 = VNum v /\ VNum 120 = VNum lo /\
                   VNum 60 = VNum hi /\ ~ lo == hi) /\
  (exists p, normalize_value (VNum 130) (VNum 120) (VNum 60) = Ok (Fin p) /\
             0 <= p <= 100) /\
  normalize_value (VNum 75) (VNum 50) (VStr "一百") = Raise TypeError.
Proof.
  assert (Hin : pd_isna (VNum 130) = true \/
                exists v lo hi, VNum 130 = VNum v /\ VNum 120 = VNum lo /\
                                VNum 60 = VNum hi /\ ~ lo == hi).
  { right. exists 130, 120, 60. repeat split. vm_compute. discriminate. }
  split; [exact Hin |]. split.
  - exact (proj1 (normalize_value_defined (VNum 130) (VNum 120) (VNum 60)) Hin).
  - apply (proj2 (normalize_value_defined (VNum 75) (VNum 50) (VStr "一百"))).
    split; [reflexivity |]. right. right. reflexivity.
Defined.

(** The exact condition: the value is missing, or all three operands are
    numbers and the two bounds are not two equal finite numbers. *)
Lemma normalize_value_ok_iff (value min_val max_val : pyval) :
  (exists p, normalize_value value min_val max_val = Ok p) <->
  pd_isna value = true \/
  (exists a b c, to_num value = Ok a /\ to_num min_val = Ok b /\
                 to_num max_val = Ok c /\
                 forall lo hi, b = Fin lo -> c = Fin hi -> ~ hi - lo == 0).
Proof.
  unfold normalize_value. destruct (pd_isna value) eqn:Emiss.
  - split; [intros _; left; reflexivity | intros _; eexists; reflexivity].
  - split.
    + intros [p Hp]. right.
      destruct value as [| bv | v | sv]; try discriminate Emiss;
        try discriminate Hp.
      destruct min_val as [| bl | lo | sl]; try discriminate Hp;
        destruct max_val as [| bh | hi | sh]; try discriminate Hp;
        eexists _, _, _; repeat split; try reflexivity;
        intros lo' hi' E1 E2; try discriminate E1; try discriminate E2.
      injection E1 as <-. injection E2 as <-. intros E.
      cbn in Hp. unfold mbind, result_bind in Hp. cbn in Hp.
      apply Qeq_bool_iff in E. rewrite E in Hp. discriminate Hp.
    + intros [Habs | (a & b & c & Ea & Eb & Ec & Hne)]; [discriminate |].
      destruct value as [| bv | v | sv]; try discriminate Emiss;
        try discriminate Ea.
      destruct min_val as [| bl | lo | sl]; try discriminate Eb;
        destruct max_val as [| bh | hi | sh]; try discriminate Ec;
        try (eexists; reflexivity).
      injection Eb as <-. injection Ec as <-.
      cbn. unfold mbind, result_bind. cbn.
      rewrite (Qeq_bool_false_of_neq _ _ (Hne lo hi eq_refl eq_refl)).
      eexists; reflexivity.
Qed.

End NormalizeClaims.

(** ** The straight-line fit is the least-squares one *)

Section LeastSquares.
Local Open Scope Q_scope.

Lemma Qsum_cons (x : Q) (l : list Q) : Qsum (x :: l) = x + Qsum l.
Proof. reflexivity. Qed.

Lemma Qsum_app (l1 l2 : list Q) : Qsum (l1 ++ l2) == Qsum l1 + Qsum l2.
Proof.
  induction l1 as [| x l1 IH].
  - change (Qsum ([] ++ l2)) with (Qsum l2). change (Qsum []) with 0. ring.
  - change (Qsum ((x :: l1) ++ l2)) with (x + Qsum (l1 ++ l2)).
    rewrite Qsum_cons, IH. ring.
Qed.

Lemma Qlen_cons {A : Type} (x : A) (l : list A) : Qlen (x :: l) == Qlen l + 1.
Proof.
  unfold Qlen. cbn [length]. rewrite Nat2Z.inj_succ, <- Z.add_1_r.
  rewrite inject_Z_plus. reflexivity.
Qed.

Lemma Qlen_app {A : Type} (l1 l2 : list A) :
  Qlen (l1 ++ l2) == Qlen l1 + Qlen l2.
Proof.
  unfold Qlen. rewrite length_app, Nat2Z.inj_add, inject_Z_plus. reflexivity.
Qed.

Lemma Qlen_pos {A : Type} (l : list A) : (0 < length l)%nat -> 0 < Qlen l.
Proof.
  intros H. unfold Qlen. change 0 with (inject_Z 0).
  rewrite <- Zlt_Qlt. lia.
Qed.

(** The squared error is a quadratic in the two coefficients, with the
    moments of the points as its constants. *)
Lemma squared_error_expand (pts : list (Q * Q)) (a b : Q) :
  squared_error pts (a, b)
  == sum_yy pts - 2 * a * sum_xy pts - 2 * b * sum_y pts
     + a * a * sum_xx pts + 2 * a * b * sum_x pts + Qlen pts * (b * b).
Proof.
  unfold squared_error, sum_yy, sum_xy, sum_y, sum_xx, sum_x, polyval.
  induction pts as [| [x y] pts IH].
  - change (Qlen (@nil (Q * Q))) with 0. cbn [List.map Qsum fold_right]. ring.
  - rewrite Qlen_cons, !map_cons, !Qsum_cons. cbn [fst snd] in *.
    rewrite IH. ring.
Qed.

Lemma Qsquare_nonneg (x : Q) : 0 <= x * x.
Proof. nra. Qed.

(** Around a point where both normal equations hold, the quadratic grows
    by a form in the two differences. *)
Lemma quadratic_gap (n Sx Sy Sxx Sxy Syy a b a' b' : Q) :
  a * Sx + n * b == Sy ->
  a * Sxx + b * Sx == Sxy ->
  (Syy - 2 * a' * Sxy - 2 * b' * Sy + a' * a' * Sxx + 2 * a' * b' * Sx
   + n * (b' * b'))
  - (Syy - 2 * a * Sxy - 2 * b * Sy + a * a * Sxx + 2 * a * b * Sx
     + n * (b * b))
  == Sxx * ((a' - a) * (a' - a)) + 2 * Sx * ((a' - a) * (b' - b))
     + n * ((b' - b) * (b' - b)).
Proof.
  intros E1 E2. rewrite <- E1, <- E2. ring.
Qed.

Lemma form_completed_square (n Sx Sxx da db : Q) :
  n * (Sxx * (da * da) + 2 * Sx * (da * db) + n * (db * db))
  == (n * db + Sx * da) * (n * db + Sx * da)
     + (n * Sxx - Sx * Sx) * (da * da).
Proof. ring. Qed.

(** So the quadratic is smallest there, as long as the determinant is
    not negative ... *)
Lemma quadratic_minimum (n Sx Sy Sxx Sxy Syy a b a' b' : Q) :
  0 < n -> 0 <= n * Sxx - Sx * Sx ->
  a * Sx + n * b == Sy ->
  a * Sxx + b * Sx == Sxy ->
  Syy - 2 * a * Sxy - 2 * b * Sy + a * a * Sxx + 2 * a * b * Sx + n * (b * b)
  <= Syy - 2 * a' * Sxy - 2 * b' * Sy + a' * a' * Sxx + 2 * a' * b' * Sx
     + n * (b' * b').
Proof.
  intros Hn HD E1 E2.
  pose proof (quadratic_gap n Sx Sy Sxx Sxy Syy a b a' b' E1 E2) as Hgap.
  pose proof (form_completed_square n Sx Sxx (a' - a) (b' - b)) as Hsq.
  pose proof (Qsquare_nonneg (n * (b' - b) + Sx * (a' - a))) as H1.
  assert (H2 : 0 <= (n * Sxx - Sx * Sx) * ((a' - a) * (a' - a)))
    by (apply Qmult_le_0_compat; [assumption | apply Qsquare_nonneg]).
  set (form := Sxx * ((a' - a) * (a' - a)) + 2 * Sx * ((a' - a) * (b' - b))
               + n * ((b' - b) * (b' - b))) in *.
  assert (Hpos : 0 <= form).
  { destruct (Qlt_le_dec form 0) as [Hneg | Hok]; [| exact Hok].
    exfalso. assert (n * form < 0) by nra. lra. }
  lra.
Qed.

(** ... and nowhere else, when the determinant is positive. *)
Lemma quadratic_minimiser_unique (n Sx Sy Sxx Sxy Syy a b a' b' : Q) :
  0 < n -> 0 < n * Sxx - Sx * Sx ->
  a * Sx + n * b == Sy ->
  a * Sxx + b * Sx == Sxy ->
  Syy - 2 * a' * Sxy - 2 * b' * Sy + a' * a' * Sxx + 2 * a' * b' * Sx
    + n * (b' * b')
  <= Syy - 2 * a * Sxy - 2 * b * Sy + a * a * Sxx + 2 * a * b * Sx
     + n * (b * b) ->
  a' == a /\ b' == b.
Proof.
  intros Hn HD E1 E2 Hle.
  pose proof (quadratic_gap n Sx Sy Sxx Sxy Syy a b a' b' E1 E2) as Hgap.
  pose proof (form_completed_square n Sx Sxx (a' - a) (b' - b)) as Hsq.
  pose proof (Qsquare_nonneg (n * (b' - b) + Sx * (a' - a))) as H1.
  pose proof (Qsquare_nonneg (a' - a)) as H2.
  set (form := Sxx * ((a' - a) * (a' - a)) + 2 * Sx * ((a' - a) * (b' - b))
               + n * ((b' - b) * (b' - b))) in *.
  assert (Hform : form <= 0) by lra.
  assert (Hn0 : n * form <= 0) by nra.
  assert (Hda2 : (a' - a) * (a' - a) == 0).
  { destruct (Qlt_le_dec 0 ((a' - a) * (a' - a))) as [Hp | Hz]; [| lra].
    exfalso.
    assert (0 < (n * Sxx - Sx * Sx) * ((a' - a) * (a' - a)))
      by (apply Qmult_lt_0_compat; assumption).
    lra. }
  assert (Hda : a' - a == 0).
  { destruct (Qmult_integral _ _ Hda2); assumption. }
  assert (Hdb2 : (n * (b' - b) + Sx * (a' - a))
                 * (n * (b' - b) + Sx * (a' - a)) == 0).
  { rewrite Hda2 in Hsq. lra. }
  assert (Hdb : n * (b' - b) + Sx * (a' - a) == 0).
  { destruct (Qmult_integral _ _ Hdb2); assumption. }
  rewrite Hda in Hdb.
  assert (Hb : n * (b' - b) == 0) by lra.
  destruct (Qmult_integral _ _ Hb) as [Hz | Hz]; [lra |].
  split; lra.
Qed.

(** The coefficients of [polyfit1] solve both normal equations. *)
Lemma polyfit1_normal_equations (xs ys : list Q) :
  let pts := combine xs ys in
  let c := polyfit1 xs ys in
  0 < Qlen pts ->
  0 < Qlen pts * sum_xx pts - sum_x pts * sum_x pts ->
  fst c * sum_x pts + Qlen pts * snd c == sum_y pts /\
  fst c * sum_xx pts + snd c * sum_x pts == sum_xy pts.
Proof.
  intros pts c Hn HD. subst c. unfold polyfit1. fold pts. cbn [fst snd].
  split; field; split; lra.
Qed.

Lemma map_fst_combine_same_length {A B : Type} (l1 : list A) (l2 : list B) :
  length l1 = length l2 -> List.map fst (combine l1 l2) = l1.
Proof.
  revert l2. induction l1 as [| x l1 IH]; intros [| y l2] Hlen;
    simpl in *; try discriminate; try reflexivity.
  f_equal. apply IH. congruence.
Qed.

Lemma length_combine_same_length {A B : Type} (l1 : list A) (l2 : list B) :
  length l1 = length l2 -> length (combine l1 l2) = length l2.
Proof.
  intros H. rewrite length_combine, H. apply Nat.min_id.
Qed.

Lemma length_arange (n : nat) : length (arange n) = n.
Proof. unfold arange. rewrite length_map. apply length_seq. Qed.

Lemma arange_S (n : nat) :
  arange (S n) = arange n ++ [inject_Z (Z.of_nat n)].
Proof. unfold arange. rewrite seq_S, map_app. reflexivity. Qed.

Lemma inject_nat_S (n : nat) :
  inject_Z (Z.of_nat (S n)) == inject_Z (Z.of_nat n) + 1.
Proof.
  rewrite Nat2Z.inj_succ, <- Z.add_1_r, inject_Z_plus. reflexivity.
Qed.

(** 0 + 1 + ... + (n-1). *)
Lemma arange_sum (n : nat) :
  Qsum (arange n)
  == inject_Z (Z.of_nat n) * (inject_Z (Z.of_nat n) - 1) / 2.
Proof.
  induction n as [| n IH].
  - reflexivity.
  - rewrite arange_S, Qsum_app, IH, inject_nat_S.
    change (Qsum [inject_Z (Z.of_nat n)]) with (inject_Z (Z.of_nat n) + 0).
    field.
Qed.

(** 0 + 1 + 4 + ... + (n-1)^2. *)
Lemma arange_sum_squares (n : nat) :
  Qsum (List.map (fun x => x * x) (arange n))
  == (inject_Z (Z.of_nat n) - 1) * inject_Z (Z.of_nat n)
     * (2 * inject_Z (Z.of_nat n) - 1) / 6.
Proof.
  induction n as [| n IH].
  - reflexivity.
  - rewrite arange_S, map_app, Qsum_app, IH, inject_nat_S.
    change (Qsum (List.map (fun x => x * x) [inject_Z (Z.of_nat n)]))
      with (inject_Z (Z.of_nat n) * inject_Z (Z.of_nat n) + 0).
    field.
Qed.

(** Two positions or more are never all the same: the determinant of the
    normal equations is positive. *)
Lemma arange_spread (n : nat) :
  (2 <= n)%nat ->
  0 < inject_Z (Z.of_nat n) * Qsum (List.map (fun x => x * x) (arange n))
      - Qsum (arange n) * Qsum (arange n).
Proof.
  intros Hn. rewrite arange_sum, arange_sum_squares.
  set (N := inject_Z (Z.of_nat n)).
  assert (HN : 2 <= N).
  { subst N. change 2 with (inject_Z 2). rewrite <- Zle_Qle. lia. }
  assert (E : N * ((N - 1) * N * (2 * N - 1) / 6)
              - N * (N - 1) / 2 * (N * (N - 1) / 2)
              == N * N * (N - 1) * (N + 1) / 12) by field.
  rewrite E.
  assert (HP : 0 < N * N * (N - 1) * (N + 1)) by
    (repeat apply Qmult_lt_0_compat; lra).
  revert HP. generalize (N * N * (N - 1) * (N + 1)). intros P HP.
  unfold Qdiv. apply Qmult_lt_0_compat; [exact HP | reflexivity].
Qed.

Lemma sum_x_arange (ys : list Q) :
  sum_x (combine (arange (length ys)) ys) = Qsum (arange (length ys)).
Proof.
  unfold sum_x. rewrite map_fst_combine_same_length; [reflexivity |].
  apply length_arange.
Qed.

Lemma sum_xx_arange (ys : list Q) :
  sum_xx (combine (arange (length ys)) ys)
  = Qsum (List.map (fun x => x * x) (arange (length ys))).
Proof.
  unfold sum_xx.
  rewrite <- (map_fst_combine_same_length (arange (length ys)) ys)
    at 2 by apply length_arange.
  rewrite List.map_map. reflexivity.
Qed.

Lemma Qlen_combine_arange (ys : list Q) :
  Qlen (combine (arange (length ys)) ys) = inject_Z (Z.of_nat (length ys)).
Proof.
  unfold Qlen. rewrite length_combine_same_length by apply length_arange.
  reflexivity.
Qed.

Lemma arange_fit_conditions (ys : list Q) :
  (2 <= length ys)%nat ->
  let pts := combine (arange (length ys)) ys in
  0 < Qlen pts /\ 0 < Qlen pts * sum_xx pts - sum_x pts * sum_x pts.
Proof.
  intros Hn pts. subst pts. split.
  - rewrite Qlen_combine_arange. change 0 with (inject_Z 0).
    rewrite <- Zlt_Qlt. lia.
  - rewrite Qlen_combine_arange, sum_xx_arange, sum_x_arange.
    now apply arange_spread.
Qed.

(** Over the positions 0 .. n-1 of two values or more, no line has a
    smaller squared error than the one [polyfit1] returns. *)
Lemma polyfit1_least_squares (ys : list Q) :
  (2 <= length ys)%nat ->
  least_squares_line (combine (arange (length ys)) ys)
                     (polyfit1 (arange (length ys)) ys).
Proof.
  intros Hn c'. destruct c' as [a' b'].
  destruct (polyfit1 (arange (length ys)) ys) as [a b] eqn:Ec.
  destruct (arange_fit_conditions ys Hn) as [Hlen HD].
  destruct (polyfit1_normal_equations (arange (length ys)) ys Hlen HD)
    as [E1 E2].
  rewrite Ec in E1, E2. cbn [fst snd] in E1, E2.
  rewrite !squared_error_expand.
  apply quadratic_minimum; try assumption. lra.
Qed.

(** It is the only such line. *)
Lemma least_squares_line_unique (ys : list Q) (c : Q * Q) :
  (2 <= length ys)%nat ->
  least_squares_line (combine (arange (length ys)) ys) c ->
  fst c == fst (polyfit1 (arange (length ys)) ys) /\
  snd c == snd (polyfit1 (arange (length ys)) ys).
Proof.
  intros Hn Hc. destruct c as [a' b'].
  specialize (Hc (polyfit1 (arange (length ys)) ys)).
  destruct (arange_fit_conditions ys Hn) as [Hlen HD].
  destruct (polyfit1_normal_equations (arange (length ys)) ys Hlen HD)
    as [E1 E2].
  destruct (polyfit1 (arange (length ys)) ys) as [a b] eqn:Ec.
  cbn [fst snd] in *.
  rewrite !squared_error_expand in Hc.
  set (pts := combine (arange (length ys)) ys) in *.
  apply (quadratic_minimiser_unique (Qlen pts) (sum_x pts) (sum_y pts)
           (sum_xx pts) (sum_xy pts) (sum_yy pts) a b a' b');
    assumption.
Qed.

Lemma least_squares_line_polyval (ys : list Q) (c : Q * Q) (x : Q) :
  (2 <= length ys)%nat ->
  least_squares_line (combine (arange (length ys)) ys) c ->
  polyval c x == polyval (polyfit1 (arange (length ys)) ys) x.
Proof.
  intros Hn Hc. destruct (least_squares_line_unique ys c Hn Hc) as [Ea Eb].
  unfold polyval. rewrite Ea, Eb. reflexivity.
Qed.

(** [clamp_gpa] on a finite number is clamping to [0, 4]. *)
Lemma clamp_gpa_Fin (x : Q) :
  exists p, clamp_gpa (Fin x) = Fin p /\ p == clamp_to_range 0 4 x /\
            0 <= p <= 4.
Proof.
  unfold clamp_gpa, clamp_to_range, py_min.
  destruct (num_lt (Fin x) (Fin 4)) eqn:E1.
  - apply num_lt_Fin in E1. unfold py_max.
    destruct (num_lt (Fin 0) (Fin x)) eqn:E2.
    + apply num_lt_Fin in E2. exists x.
      split; [reflexivity |]. split; [| lra].
      rewrite (Q.min_r 4 x), (Q.max_r 0 x) by lra. reflexivity.
    + apply num_lt_Fin_false in E2. exists 0.
      split; [reflexivity |]. split; [| lra].
      rewrite (Q.min_r 4 x), (Q.max_l 0 x) by lra. reflexivity.
  - apply num_lt_Fin_false in E1. exists 4.
    split; [reflexivity |]. split; [| lra].
    rewrite (Q.min_l 4 x), (Q.max_r 0 4) by lra. reflexivity.
Qed.

Lemma clamp_to_range_compat (lo hi x y : Q) :
  x == y -> clamp_to_range lo hi x == clamp_to_range lo hi y.
Proof. intros E. unfold clamp_to_range. rewrite E. reflexivity. Qed.

End LeastSquares.

(** ** The grade-point chart *)

Section GpaChart.
Context `{TextNumbers}.
Local Open Scope Q_scope.

Lemma collect_semester_data student_data st sem_num :
  data (collect_semester student_data st sem_num) = data st.
Proof.
  unfold collect_semester.
  destruct (student_data !! (sem_num +:+ "绩点")) as [v |]; [| reflexivity].
  destruct (pd_notna v); [| reflexivity].
  destruct v as [| b | q | s]; cbn; try reflexivity.
  destruct (float_of_str s); reflexivity.
Qed.

(** A value is never collected without its label. *)
Lemma collect_semester_lengths student_data st sem_num :
  (length (gpas st) <= length (semesters st))%nat ->
  (length (gpas (collect_semester student_data st sem_num))
   <= length (semesters (collect_semester student_data st sem_num)))%nat.
Proof.
  intros Hle. unfold collect_semester.
  destruct (student_data !! (sem_num +:+ "绩点")) as [v |]; [| exact Hle].
  destruct (pd_notna v); [| exact Hle].
  destruct v as [| b | q | s]; cbn; rewrite ?length_app; cbn; try lia.
  destruct (float_of_str s); cbn; rewrite ?length_app; cbn; lia.
Qed.

Lemma collect_gpas_lengths student_data :
  (length (gpas (collect_gpas student_data))
   <= length (semesters (collect_gpas student_data)))%nat.
Proof.
  unfold collect_gpas, semester_names. cbn [fold_left].
  repeat apply collect_semester_lengths. cbn. lia.
Qed.

Lemma collect_gpas_data student_data : data (collect_gpas student_data) = [].
Proof.
  unfold collect_gpas, semester_names. cbn [fold_left].
  rewrite !collect_semester_data. reflexivity.
Qed.

(** The sample series is substituted exactly when fewer than two labels
    were collected. *)
Lemma use_default_iff st :
  use_default st = true <-> (length (semesters st) < 2)%nat.
Proof.
  unfold use_default. destruct (semesters st) as [| s0 [| s1 l]]; cbn.
  - split; [lia | reflexivity].
  - split; [lia | reflexivity].
  - split; [discriminate | lia].
Qed.

Lemma with_fallback_kept st :
  (2 <= length (semesters st))%nat -> with_fallback st = st.
Proof.
  intros Hlen. unfold with_fallback.
  destruct (use_default st) eqn:E; [| reflexivity].
  apply use_default_iff in E. lia.
Qed.

Lemma with_fallback_default st :
  (length (semesters st) < 2)%nat ->
  with_fallback st
  = {| semesters := semester_names; gpas := default_gpas; data := data st |}.
Proof.
  intros Hlen. unfold with_fallback.
  apply use_default_iff in Hlen. rewrite Hlen. reflexivity.
Qed.

Lemma with_fallback_two_labels st :
  (2 <= length (semesters (with_fallback st)))%nat.
Proof.
  unfold with_fallback. destruct (use_default st) eqn:E.
  - cbn. lia.
  - destruct (Nat.lt_ge_cases (length (semesters st)) 2) as [Hlt | Hge];
      [| exact Hge].
    apply use_default_iff in Hlt. congruence.
Qed.

Lemma add_class_average_series df st :
  semesters (add_class_average df st) = semesters st /\
  gpas (add_class_average df st) = gpas st.
Proof. destruct df; split; reflexivity. Qed.

(** The trend block leaves the two lists of the series as they were. *)
Lemma add_trend_series st :
  semesters (add_trend st) = semesters st /\ gpas (add_trend st) = gpas st.
Proof.
  unfold add_trend. destruct (Nat.leb 2 (length (gpas st)));
    split; reflexivity.
Qed.

Lemma add_trend_data st :
  (2 <= length (gpas st))%nat ->
  let n := length (gpas st) in
  let coeffs := polyfit1 (arange n) (gpas st) in
  let next_gpa := clamp_gpa (Fin (polyval coeffs (Qlen (gpas st)))) in
  data (add_trend st)
  = data st ++
    [ {| name := "趋势预测";
         xs := semesters st ++ [prediction_label (n + 1)];
         ys := List.map Fin (List.map (polyval coeffs) (arange n))
               ++ [next_gpa] |};
      {| name := "预测绩点";
         xs := [prediction_label (n + 1)];
         ys := [next_gpa] |} ].
Proof.
  intros Hn n coeffs next_gpa. unfold add_trend.
  apply Nat.leb_le in Hn. rewrite Hn. cbn [add_trace data].
  rewrite <- app_assoc. reflexivity.
Qed.

Lemma reference_line_two_labels sems :
  (2 <= length sems)%nat ->
  exists first, reference_line sems = Ok (first, List.last sems first).
Proof.
  intros Hlen. destruct sems as [| first rest]; [cbn in Hlen; lia |].
  exists first. unfold reference_line.
  destruct (Nat.ltb 1 (length (first :: rest))) eqn:E; [reflexivity |].
  apply Nat.ltb_ge in E. lia.
Qed.

Lemma gpa_chart_state_semesters student_data df :
  semesters (gpa_chart_state student_data df)
  = semesters (with_fallback (collect_gpas student_data)).
Proof.
  unfold gpa_chart_state.
  rewrite (proj1 (add_trend_series _)), (proj1 (add_class_average_series _ _)).
  reflexivity.
Qed.

(** The chart is built for every record and cohort: no index is out of
    range and nothing is raised. *)
Lemma create_gpa_chart_returns student_data df :
  exists first,
    create_gpa_chart student_data df
    = Ok {| fig_data := data (gpa_chart_state student_data df);
            line_x0 := first;
            line_x1 := List.last (semesters (gpa_chart_state student_data df))
                                 first |}.
Proof.
  unfold create_gpa_chart.
  destruct (reference_line_two_labels
              (semesters (gpa_chart_state student_data df))) as [first E].
  - rewrite gpa_chart_state_semesters. apply with_fallback_two_labels.
  - exists first. rewrite E. reflexivity.
Qed.

Lemma fitted_values_agree (c c0 : Q * Q) (l : list Q) :
  (forall x, polyval c x == polyval c0 x) ->
  Forall2 (fun v x => v == polyval c x) (List.map (polyval c0) l) l.
Proof.
  intros E. induction l as [| x l IH]; cbn; constructor.
  - symmetry. apply E.
  - exact IH.
Qed.

Lemma enough_values_no_fallback student_data :
  (2 <= length (gpas (collect_gpas student_data)))%nat ->
  with_fallback (collect_gpas student_data) = collect_gpas student_data.
Proof.
  intros Hn. apply with_fallback_kept.
  pose proof (collect_gpas_lengths student_data). lia.
Qed.

(** C2: whenever the series that is charted has two values or more (the
    collected one, or the sample series 3.2, 3.5, 3.1 in its place), the
    chart is built and ends with the trend line and one projected point,
    at the label after the last value; the projected value is the
    least-squares line over the positions 0 .. n-1 of the values, taken
    at position n and clamped to [0, 4], and the trend line holds that
    line's values at the positions of the values. *)
Theorem trend_projection_is_least_squares_fit
    (student_data : gmap string pyval)
    (df : option (gmap string (list pyval))) :
  let st := with_fallback (collect_gpas student_data) in
  let n := length (gpas st) in
  let pts := combine (arange n) (gpas st) in
  (2 <= n)%nat ->
  exists (next : Q) (fitted : list Q) (fig : gpa_figure),
    create_gpa_chart student_data df = Ok fig /\
    fig_data fig
    = data (add_class_average df (add_personal st)) ++
      [ {| name := "趋势预测";
           xs := semesters st ++ [prediction_label (n + 1)];
           ys := List.map Fin fitted ++ [Fin next] |};
        {| name := "预测绩点";
           xs := [prediction_label (n + 1)];
           ys := [Fin next] |} ] /\
    (exists c, least_squares_line pts c) /\
    forall c, least_squares_line pts c ->
      next == clamp_to_range 0 4 (polyval c (inject_Z (Z.of_nat n))) /\
      Forall2 (fun v x => v == polyval c x) fitted (arange n).
Proof.
  intros st n pts Hn.
  set (c0 := polyfit1 (arange n) (gpas st)).
  destruct (clamp_gpa_Fin (polyval c0 (Qlen (gpas st))))
    as (next & Enext & Hclamp & _).
  destruct (create_gpa_chart_returns student_data df) as [first Efig].
  exists next, (List.map (polyval c0) (arange n)). eexists.
  split; [exact Efig |]. cbn [fig_data]. split; [| split].
  - unfold gpa_chart_state. fold st.
    assert (Eg : gpas (add_class_average df (add_personal st)) = gpas st)
      by (rewrite (proj2 (add_class_average_series _ _)); reflexivity).
    assert (Es : semesters (add_class_average df (add_personal st))
                 = semesters st)
      by (rewrite (proj1 (add_class_average_series _ _)); reflexivity).
    rewrite add_trend_data by (rewrite Eg; exact Hn).
    rewrite Eg, Es. fold n. fold c0. rewrite Enext. reflexivity.
  - exists c0. apply polyfit1_least_squares. exact Hn.
  - intros c Hc.
    assert (E : forall x, polyval c x == polyval c0 x)
      by (intros x; apply least_squares_line_polyval; assumption).
    split.
    + rewrite Hclamp. apply clamp_to_range_compat. symmetry. apply E.
    + apply fitted_values_agree. exact E.
Qed.

(** A collected series with two values or more is charted as it is. *)
Lemma two_values_are_charted student_data :
  (2 <= length (gpas (collect_gpas student_data)))%nat ->
  (2 <= length (gpas (with_fallback (collect_gpas student_data))))%nat.
Proof.
  intros Hn. rewrite enough_values_no_fallback; exact Hn.
Qed.

(** Below two collected labels the sample series is charted. *)
Lemma few_labels_give_sample_series student_data :
  (length (semesters (collect_gpas student_data)) < 2)%nat ->
  semesters (with_fallback (collect_gpas student_data)) = semester_names /\
  gpas (with_fallback (collect_gpas student_data)) = default_gpas.
Proof.
  intros Hlt. rewrite with_fallback_default by exact Hlt.
  split; reflexivity.
Qed.

Lemma personal_trace_charted df st :
  In {| name := "个人绩点"; xs := semesters st; ys := List.map Fin (gpas st) |}
     (data (add_class_average df (add_personal st))).
Proof.
  destruct df as [df |]; cbn.
  - apply in_or_app. left. apply in_or_app. right. left. reflexivity.
  - apply in_or_app. right. left. reflexivity.
Qed.

(** C9, as the program has it: with two present values or more the trend
    block leaves the labels and the values of the series as they were,
    and adds a line over the original labels plus one projected label
    whose values are those of the fitted line followed by the one
    projected value; the individual trace still shows the series, and the
    reference line still ends at its last label. *)
Theorem trend_projection_keeps_series
    (student_data : gmap string pyval)
    (df : option (gmap string (list pyval))) :
  let st := collect_gpas student_data in
  let n := length (gpas st) in
  let before := add_class_average df (add_personal st) in
  (2 <= n)%nat ->
  semesters (add_trend before) = semesters st /\
  gpas (add_trend before) = gpas st /\
  exists (trend point : trace) (next : num) (fig : gpa_figure),
    data (add_trend before) = data before ++ [trend; point] /\
    xs trend = semesters st ++ [prediction_label (n + 1)] /\
    ys trend
    = List.map Fin
        (List.map (polyval (polyfit1 (arange n) (gpas st))) (arange n))
      ++ [next] /\
    length (ys trend) = (n + 1)%nat /\
    xs point = [prediction_label (n + 1)] /\
    ys point = [next] /\
    In {| name := "个人绩点"; xs := semesters st; ys := List.map Fin (gpas st) |}
       (data (add_trend before)) /\
    create_gpa_chart student_data df = Ok fig /\
    fig_data fig = data (add_trend before) /\
    line_x1 fig = List.last (semesters st) (line_x0 fig).
Proof.
  intros st n before Hn.
  assert (Eg : gpas before = gpas st)
    by (subst before; rewrite (proj2 (add_class_average_series _ _));
        reflexivity).
  assert (Es : semesters before = semesters st)
    by (subst before; rewrite (proj1 (add_class_average_series _ _));
        reflexivity).
  split; [rewrite (proj1 (add_trend_series _)); exact Es |].
  split; [rewrite (proj2 (add_trend_series _)); exact Eg |].
  destruct (create_gpa_chart_returns student_data df) as [first Efig].
  assert (Est : gpa_chart_state student_data df = add_trend before).
  { unfold gpa_chart_state. rewrite enough_values_no_fallback by exact Hn.
    reflexivity. }
  rewrite Est in Efig.
  pose proof (add_trend_data before) as Hdata.
  rewrite Eg, Es in Hdata. specialize (Hdata Hn). cbv zeta in Hdata.
  fold n in Hdata.
  eexists _, _, _, _. split; [exact Hdata |].
  cbn [xs ys fig_data line_x0 line_x1].
  repeat split; try reflexivity.
  - rewrite length_app, !length_map, length_arange. reflexivity.
  - rewrite Hdata. apply in_or_app. left. apply personal_trace_charted.
  - exact Efig.
  - cbn. reflexivity.
  - cbn. rewrite (proj1 (add_trend_series _)), Es. reflexivity.
Qed.

End GpaChart.

(** *** The chart on the worked examples *)

Lemma trend_projection_is_least_squares_fit_witness :
  (2 <= length (gpas (with_fallback
                        (@collect_gpas decimal_text sample_student))))%nat /\
  exists (next : Q) (fig : gpa_figure),
    @create_gpa_chart decimal_text sample_student None = Ok fig /\
    In {| name := "预测绩点"; xs := ["第4学期(预测)"]; ys := [Fin next] |}
       (fig_data fig) /\
    (next == 19 / 6)%Q.
Proof.
  assert (Hn : (2 <= length (gpas (with_fallback
                                     (@collect_gpas decimal_text
                                        sample_student))))%nat)
    by (vm_compute; lia).
  split; [exact Hn |].
  destruct (@trend_projection_is_least_squares_fit decimal_text
              sample_student None Hn)
    as (next & fitted & fig & Efig & Edata & _ & Hall).
  exists next, fig. split; [exact Efig |]. split.
  - rewrite Edata. apply in_or_app. right. right. left. reflexivity.
  - destruct (Hall _ (polyfit1_least_squares _ Hn)) as [Enext _].
    rewrite Enext. vm_compute. reflexivity.
Defined.

(** The series 3.2, 3.5, 3.1 is continued by 19/6, about 3.17: the fitted
    line falls by 0.05 per period from 199/60. *)
Example sample_series_projection :
  (fst (polyfit1 (arange 3) [3.2; 3.5; 3.1]) == - (1 / 20))%Q /\
  (snd (polyfit1 (arange 3) [3.2; 3.5; 3.1]) == 199 / 60)%Q /\
  (polyval (polyfit1 (arange 3) [3.2; 3.5; 3.1]) 3 == 19 / 6)%Q /\
  exists p, clamp_gpa (Fin (polyval (polyfit1 (arange 3) [3.2; 3.5; 3.1]%Q) 3))
            = Fin p /\ (p == 19 / 6)%Q.
Proof.
  split; [| split; [| split]].
  - vm_compute. reflexivity.
  - vm_compute. reflexivity.
  - vm_compute. reflexivity.
  - eexists. split; [vm_compute; reflexivity | vm_compute; reflexivity].
Qed.

(** A record without grade points is charted with the sample series, and
    the projection is the same 19/6. *)
Example empty_record_chart :
  exists (fig : gpa_figure) (p : Q),
    @create_gpa_chart decimal_text ∅ None = Ok fig /\
    fig_data fig !! 0%nat
    = Some {| name := "个人绩点";
              xs := ["第一学期"; "第二学期"; "第三学期"];
              ys := [Fin 3.2; Fin 3.5; Fin 3.1] |} /\
    fig_data fig !! 2%nat
    = Some {| name := "预测绩点"; xs := ["第4学期(预测)"]; ys := [Fin p] |} /\
    (p == 19 / 6)%Q.
Proof.
  eexists _, _. split; [vm_compute; reflexivity |].
  split; [reflexivity |]. split; [reflexivity |].
  vm_compute. reflexivity.
Qed.

Lemma trend_projection_keeps_series_witness :
  (2 <= length (gpas (@collect_gpas decimal_text sample_student)))%nat /\
  semesters (add_trend (add_personal (@collect_gpas decimal_text sample_student)))
  = ["第一学期"; "第二学期"; "第三学期"] /\
  gpas (add_trend (add_personal (@collect_gpas decimal_text sample_student)))
  = [3.2; 3.5; 3.1]%Q.
Proof.
  assert (Hn : (2 <= length (gpas (@collect_gpas decimal_text sample_student)))%nat)
    by (vm_compute; lia).
  split; [exact Hn |].
  destruct (@trend_projection_keeps_series decimal_text sample_student None Hn)
    as (Es & Eg & _).
  cbn [add_class_average] in Es, Eg. rewrite Es, Eg.
  split; vm_compute; reflexivity.
Defined.

(** C9, as stated, fails: the line that the trend block adds does not carry
    the values of the series.  For 3.2, 3.5, 3.1 it starts at 199/60, about
    3.32, where the series starts at 3.2. *)
Lemma trend_line_is_not_the_series :
  exists (fig : gpa_figure) (t : trace) (q : Q) (rest : list num),
    @create_gpa_chart decimal_text sample_student None = Ok fig /\
    gpas (@collect_gpas decimal_text sample_student) = [3.2; 3.5; 3.1]%Q /\
    fig_data fig !! 1%nat = Some t /\
    name t = "趋势预测" /\
    ys t = Fin q :: rest /\
    (q == 199 / 60)%Q /\ ~ (q == 3.2)%Q.
Proof.
  eexists _, _, _, _.
  split; [vm_compute; reflexivity |].
  split; [vm_compute; reflexivity |].
  split; [reflexivity |].
  split; [reflexivity |].
  split; [reflexivity |].
  split; [vm_compute; reflexivity |].
  vm_compute. discriminate.
Qed.

(** C3 on a record whose two present values do not convert: no value is
    collected, yet the sample series is not substituted, since the labels
    were counted; the chart shows two labels without values and no trend. *)
Theorem unconverted_values_block_the_fallback :
  gpas (@collect_gpas decimal_text ungraded_student) = [] /\
  use_default (@collect_gpas decimal_text ungraded_student) = false /\
  @create_gpa_chart decimal_text ungraded_student None
  = Ok {| fig_data := [ {| name := "个人绩点";
                           xs := ["第一学期"; "第二学期"];
                           ys := [] |} ];
          line_x0 := "第一学期";
          line_x1 := "第二学期" |}.
Proof.
  repeat split; vm_compute; reflexivity.
Qed.

(** ** The record aggregator *)

Section Aggregator.
Context `{TextNumbers}.
Local Open Scope Q_scope.

Lemma series_mean_none (s : list num) :
  finite_values s = [] -> series_mean s = NaN.
Proof. intros E. unfold series_mean. rewrite E. reflexivity. Qed.

Lemma series_mean_some (s : list num) :
  finite_values s <> [] ->
  exists m, series_mean s = Fin m /\
            m * Qlen (finite_values s) == Qsum (finite_values s).
Proof.
  intros Hne. unfold series_mean.
  destruct (finite_values s) as [| q qs] eqn:E; [contradiction |].
  eexists. split; [reflexivity |].
  assert (Hpos : 0 < Qlen (q :: qs)) by (apply Qlen_pos; cbn; lia).
  field. lra.
Qed.

End Aggregator.

(** C4, as stated, fails: over a column with no numeric entry the mean is
    NaN, not 0. *)
Lemma mean_of_unconvertible_column_is_nan :
  finite_values (List.map (@to_numeric decimal_text)
                   [VStr "优"; VStr "良"; VNone]) = [] /\
  @class_mean_or decimal_text remarks_cohort "德育" (Fin 0) = NaN /\
  @class_mean_or decimal_text remarks_cohort "德育" (Fin 0) <> Fin 0 /\
  hd (Fin 0) (@class_avg decimal_text remarks_cohort) = NaN.
Proof.
  repeat split; try (vm_compute; reflexivity).
  vm_compute. discriminate.
Qed.

(** ** The help status and the cohort statistics *)

Section HelpStatus.

(** The card says "no help needed" exactly for an absent field, [None],
    the [np.nan] object, and the text "无". *)
Lemma help_needed_false_iff (student_data : gmap string pyval) :
  help_needed (display_help_status student_data) = false <->
  student_data !! help_field = None \/
  student_data !! help_field = Some VNone \/
  student_data !! help_field = Some np_nan \/
  student_data !! help_field = Some (VStr "无").
Proof.
  unfold display_help_status, get. cbn [help_needed].
  destruct (student_data !! help_field) as [v |].
  - destruct v as [| [|] | q | s]; cbn.
    + split; [intros _; right; left; reflexivity | reflexivity].
    + split; [intros _; right; right; left; reflexivity | reflexivity].
    + split; [discriminate |].
      intros [E | [E | [E | E]]]; discriminate E.
    + split; [discriminate |].
      intros [E | [E | [E | E]]]; discriminate E.
    + rewrite orb_false_r. rewrite negb_false_iff, String.eqb_eq.
      split.
      * intros ->. right; right; right. reflexivity.
      * intros [E | [E | [E | E]]]; try discriminate E.
        injection E as ->. reflexivity.
  - cbn. split; [intros _; left; reflexivity | reflexivity].
Qed.

(** Every text other than "无" is classified as needing help. *)
Lemma help_needed_text (student_data : gmap string pyval) (s : string) :
  student_data !! help_field = Some (VStr s) -> s <> "无" ->
  help_needed (display_help_status student_data) = true.
Proof.
  intros E Hne. apply not_false_iff_true. intros Hf.
  apply help_needed_false_iff in Hf. rewrite E in Hf.
  destruct Hf as [Hf | [Hf | [Hf | Hf]]]; try discriminate Hf.
  injection Hf as ->. contradiction.
Qed.

(** C10: a record whose field is the empty text is classified as needing
    help. *)
Theorem empty_text_needs_help (student_data : gmap string pyval) :
  help_needed (display_help_status (<[help_field := VStr ""]> student_data))
  = true.
Proof.
  unfold display_help_status, get. cbn [help_needed].
  rewrite lookup_insert_eq. reflexivity.
Qed.

(** C5 at a NaN that is not the [np.nan] object, such as [float('nan')]
    or a value read from a float64 column: it is missing, the cohort
    count does not count it, and the card classifies it as needing
    help. *)
Theorem other_nan_is_classified_as_needing_help :
  pd_isna (VNaN false) = true /\
  help_needed (display_help_status (<[help_field := VNaN false]> ∅)) = true /\
  help_needed (display_help_status (<[help_field := np_nan]> ∅)) = false /\
  help_needed (display_help_status (<[help_field := VStr "无"]> ∅)) = false /\
  help_needed (display_help_status ∅) = false /\
  help_needed_count (<[help_field := [VNaN false]]> ∅) = Ok 0%nat.
Proof.
  repeat split; vm_compute; reflexivity.
Qed.

(** The cohort count: present and not the text "无". *)
Lemma help_needed_count_spec (df : gmap string (list pyval))
    (col : list pyval) :
  df !! help_field = Some col ->
  help_needed_count df
  = Ok (length (List.filter
                  (fun v => pd_notna v && negb (py_eq v (VStr "无"))) col)).
Proof.
  intros E. unfold help_needed_count, df_getitem. rewrite E. reflexivity.
Qed.

Lemma help_needed_count_absent (df : gmap string (list pyval)) :
  df !! help_field = None ->
  help_needed_count df = Raise (KeyError help_field).
Proof.
  intros E. unfold help_needed_count, df_getitem. rewrite E. reflexivity.
Qed.

Lemma cohort_statistics_absent (df : gmap string (list pyval)) :
  df !! help_field = None ->
  cohort_statistics df = Raise (KeyError help_field).
Proof.
  intros E. unfold cohort_statistics.
  rewrite help_needed_count_absent by exact E. reflexivity.
Qed.

Lemma award_count_absent (df : gmap string (list pyval)) :
  df !! "人民奖学金" = None ->
  award_count df = Raise (KeyError "人民奖学金").
Proof.
  intros E. unfold award_count, df_getitem. rewrite E. reflexivity.
Qed.

End HelpStatus.

(** C6 on a cohort that has only a name column: the record-level lookups
    and both charts put defaults in place of the absent fields, and the
    statistics of the overview tab raise [KeyError] on the first absent
    column. *)
Theorem statistics_raise_on_absent_column :
  names_cohort !! help_field = None /\
  cohort_statistics names_cohort = Raise (KeyError help_field) /\
  award_count names_cohort = Raise (KeyError "人民奖学金") /\
  help_needed (display_help_status named_student) = false /\
  actual_values named_student = [VNum 0; VNum 0; VNum 0; VNum 0; VNum 0] /\
  @class_avg decimal_text names_cohort = [Fin 0; Fin 0; Fin 0; Fin 0; Fin 0] /\
  (exists traces,
     @create_radar_chart decimal_text named_student (Some names_cohort)
     = Ok traces) /\
  (exists fig,
     @create_gpa_chart decimal_text named_student (Some names_cohort) = Ok fig).
Proof.
  repeat split; try (vm_compute; reflexivity);
    eexists; vm_compute; reflexivity.
Qed.


(** ** The charts as [main] draws them *)

Section Tabs.
Context `{TextNumbers}.
Local Open Scope Q_scope.

Lemma is_number_coerced (v : pyval) : is_number (of_num (to_numeric v)) = true.
Proof.
  destruct v as [| b | q | s]; cbn; try reflexivity.
  destruct (numeric_of_str s); reflexivity.
Qed.

(** After the loop every listed field that the copy has is a number or a
    NaN. *)
Lemma coerce_fields_number (keys : list string) :
  forall (done : list string) (m : gmap string pyval),
    (forall k v, In k done -> m !! k = Some v -> is_number v = true) ->
    forall k v, In k done \/ In k keys ->
      coerce_fields keys m !! k = Some v -> is_number v = true.
Proof.
  induction keys as [| key keys IH]; intros done m Hdone k v Hin Hlook.
  - cbn in Hlook. destruct Hin as [Hin | []]. eapply Hdone; eassumption.
  - change (coerce_fields (key :: keys) m)
      with (coerce_fields keys
              match m !! key with
              | Some v0 => <[key := of_num (to_numeric v0)]> m
              | None => m
              end) in Hlook.
    apply (IH (key :: done)) in Hlook; [exact Hlook | | ].
    + intros k' v' Hin' Hlook'.
      destruct (m !! key) as [v0 |] eqn:Ekey.
      * destruct (decide (key = k')) as [-> | Hne].
        -- rewrite lookup_insert_eq in Hlook'. injection Hlook' as <-.
           apply is_number_coerced.
        -- rewrite lookup_insert_ne in Hlook' by exact Hne.
           destruct Hin' as [-> | Hin']; [contradiction |].
           eapply Hdone; eassumption.
      * destruct Hin' as [<- | Hin']; [congruence |].
        eapply Hdone; eassumption.
    + destruct Hin as [Hin | [-> | Hin]].
      * left. right. exact Hin.
      * left. left. reflexivity.
      * right. exact Hin.
Qed.

Lemma coerced_field_number (keys : list string) (m : gmap string pyval)
    (k : string) (dflt : pyval) :
  In k keys -> is_number dflt = true ->
  is_number (get (coerce_fields keys m) k dflt) = true.
Proof.
  intros Hin Hd. unfold get.
  destruct (coerce_fields keys m !! k) as [v |] eqn:E; [| exact Hd].
  apply (coerce_fields_number keys [] m) with (k := k); auto.
Qed.

(** A number or a NaN against two numbers that differ is normalised
    without an exception. *)
Lemma normalize_value_number (v : pyval) (lo hi : Q) :
  is_number v = true -> ~ lo == hi ->
  exists n, normalize_value v (VNum lo) (VNum hi) = Ok n.
Proof.
  intros Hv Hne. destruct v as [| b | q | s]; try discriminate Hv.
  - eexists. reflexivity.
  - rewrite normalize_value_num by (intros E; apply Hne; lra).
    eexists. reflexivity.
Qed.

Lemma normalize_profile_numbers (v0 v1 v2 v3 v4 : pyval) :
  is_number v0 = true -> is_number v1 = true -> is_number v2 = true ->
  is_number v3 = true -> is_number v4 = true ->
  exists ns, normalize_profile [v0; v1; v2; v3; v4] = Ok ns.
Proof.
  intros H0 H1 H2 H3 H4. unfold normalize_profile.
  destruct (normalize_value_number v0 12 15 H0) as [n0 ->]; [discriminate |].
  destruct (normalize_value_number v1 50 100 H1) as [n1 ->]; [discriminate |].
  destruct (normalize_value_number v2 60 120 H2) as [n2 ->]; [discriminate |].
  destruct (normalize_value_number v3 (-1) 6 H3) as [n3 ->]; [discriminate |].
  destruct (normalize_value_number v4 50 110 H4) as [n4 ->]; [discriminate |].
  eexists. reflexivity.
Qed.

Lemma is_number_of_num (n : num) : is_number (of_num n) = true.
Proof. destruct n; reflexivity. Qed.

(** The radar chart of the tab is drawn for every record and cohort: a
    cell that is not a number has become a NaN before it is normalised. *)
Lemma tab3_radar_chart_returns (selected_student : gmap string pyval)
    (df : gmap string (list pyval)) :
  exists traces, tab3_radar_chart selected_student df = Ok traces.
Proof.
  unfold tab3_radar_chart, create_radar_chart, actual_values.
  set (m := coerce_fields radar_keys selected_student).
  destruct (normalize_profile_numbers
              (get m "德育" (VNum 0)) (get m "智育" (VNum 0))
              (get m "体测成绩" (VNum 0))
              (get m "附加分" (get m "23-24附加分" (VNum 0)))
              (get m "测评总分" (VNum 0))) as [ns ->];
    try (apply coerced_field_number; [cbn; tauto | reflexivity]).
  { apply coerced_field_number; [cbn; tauto |].
    apply coerced_field_number; [cbn; tauto | reflexivity]. }
  unfold class_avg. cbn [List.map].
  destruct (normalize_profile_numbers
              (of_num (class_mean_or df "德育" (Fin 0)))
              (of_num (class_mean_or df "智育" (Fin 0)))
              (of_num (class_mean_or df "体测成绩" (Fin 0)))
              (of_num (class_mean_or df "附加分"
                         (class_mean_or df "23-24附加分" (Fin 0))))
              (of_num (class_mean_or df "测评总分" (Fin 0)))) as [cs ->];
    try apply is_number_of_num.
  eexists. reflexivity.
Qed.

(** On a record whose grade-point cells are numbers or NaN, every
    collected label comes with its value. *)
Lemma collect_semester_aligned (m : gmap string pyval) (st : chart_state)
    (sem_num : string) :
  (forall v, m !! (sem_num +:+ "绩点") = Some v -> is_number v = true) ->
  length (gpas st) = length (semesters st) ->
  length (gpas (collect_semester m st sem_num))
  = length (semesters (collect_semester m st sem_num)).
Proof.
  intros Hnum Hlen. unfold collect_semester.
  destruct (m !! (sem_num +:+ "绩点")) as [v |]; [| exact Hlen].
  specialize (Hnum v eq_refl).
  destruct v as [| b | q | s]; try discriminate Hnum; cbn.
  - exact Hlen.
  - rewrite !length_app, Hlen. reflexivity.
Qed.

(** In the tab the fallback is therefore decided by the number of values:
    a record with fewer than two grade points that are numbers after
    coercion is charted with the sample series. *)
Lemma tab2_fallback_by_values (selected_student : gmap string pyval) :
  let st := collect_gpas (coerce_fields gpa_keys selected_student) in
  length (gpas st) = length (semesters st) /\
  ((length (gpas st) < 2)%nat ->
   semesters (with_fallback st) = semester_names /\
   gpas (with_fallback st) = default_gpas).
Proof.
  intros st.
  assert (Hlen : length (gpas st) = length (semesters st)).
  { subst st. unfold collect_gpas, semester_names. cbn [fold_left].
    repeat apply collect_semester_aligned; try reflexivity;
      intros v Hv;
      apply (coerce_fields_number gpa_keys [] selected_student) in Hv;
      auto; cbn; tauto. }
  split; [exact Hlen |].
  intros Hlt. apply few_labels_give_sample_series. fold st. lia.
Qed.

End Tabs.


(** * Further properties *)

(** ** The value normaliser *)

Section NormalizeFurther.
Local Open Scope Q_scope.

(** X2: between the bounds the percentage is the linear one: with
    [mn < mx] and [mn <= v <= mx] the result is (v - mn) / (mx - mn) * 100. *)
Theorem normalize_value_linear_between_bounds (v mn mx : Q) :
  mn < mx -> mn <= v <= mx ->
  exists p, normalize_value (VNum v) (VNum mn) (VNum mx) = Ok (Fin p) /\
            p == (v - mn) / (mx - mn) * 100.
Proof.
  intros Hb [Hlo Hhi]. rewrite normalize_value_num by lra.
  fold (scaled v mn mx).
  destruct (clamp_percent_Fin (scaled v mn mx)) as (p & E & Hzero & Hfull & Hmid).
  exists p. split; [rewrite E; reflexivity |].
  pose proof (scaled_mono mn v mn mx Hb Hlo) as H1.
  pose proof (scaled_mono v mx mn mx Hb Hhi) as H2.
  pose proof (scaled_le_0 mn mn mx Hb (Qle_refl mn)) as H3.
  pose proof (scaled_ge_100 mx mn mx Hb (Qle_refl mx)) as H4.
  assert (H5 : scaled mx mn mx == 100).
  { unfold scaled. field. lra. }
  assert (H6 : scaled mn mn mx == 0).
  { unfold scaled. field. lra. }
  destruct (Qlt_le_dec 0 (scaled v mn mx)) as [Hpos | Hnpos].
  - destruct (Qlt_le_dec (scaled v mn mx) 100) as [Hlt | Hge].
    + rewrite (Hmid (conj Hpos Hlt)). reflexivity.
    + rewrite (Hfull Hge). lra.
  - rewrite (Hzero Hnpos). lra.
Qed.

Lemma normalize_value_linear_between_bounds_witness :
  50 < 100 /\ 50 <= 75 <= 100 /\
  exists p, normalize_value (VNum 75) (VNum 50) (VNum 100) = Ok (Fin p) /\
            p == 50.
Proof.
  assert (Hb : 50 < 100) by reflexivity.
  assert (Hv : 50 <= 75 <= 100) by (split; discriminate).
  split; [exact Hb |]. split; [exact Hv |].
  destruct (normalize_value_linear_between_bounds 75 50 100 Hb Hv)
    as (p & E & Hp).
  exists p. split; [exact E |]. rewrite Hp. reflexivity.
Defined.

(** X3: a NaN as a bound does not give a NaN: for a number as value, when
    one bound is a NaN and the other a number or a NaN, the result is 100,
    since [min(100, nan)] keeps the 100. *)
Theorem normalize_value_nan_bound (v : Q) (min_val max_val : pyval) :
  is_number min_val = true -> is_number max_val = true ->
  pd_isna min_val = true \/ pd_isna max_val = true ->
  normalize_value (VNum v) min_val max_val = Ok (Fin 100).
Proof.
  intros Hlo Hhi Hnan.
  destruct min_val as [| bl | lo | sl]; try discriminate Hlo;
    destruct max_val as [| bh | hi | sh]; try discriminate Hhi;
    try reflexivity.
  destruct Hnan as [E | E]; discriminate E.
Qed.

Lemma normalize_value_nan_bound_witness :
  is_number (VNum 50) = true /\ is_number (VNaN false) = true /\
  (pd_isna (VNum 50) = true \/ pd_isna (VNaN false) = true) /\
  normalize_value (VNum 75) (VNum 50) (VNaN false) = Ok (Fin 100).
Proof.
  split; [reflexivity |]. split; [reflexivity |].
  split; [right; reflexivity |].
  apply (normalize_value_nan_bound 75 (VNum 50) (VNaN false));
    [reflexivity | reflexivity | right; reflexivity].
Defined.

End NormalizeFurther.

(** ** The radar chart *)

Section RadarFurther.
Context `{TextNumbers}.
Local Open Scope Q_scope.

Lemma normalize_value_text (s : string) (lo hi : pyval) :
  normalize_value (VStr s) lo hi = Raise TypeError.
Proof. reflexivity. Qed.

(** Against two numbers that differ, every cell but a text is given a
    percentage. *)
Lemma normalize_value_percent (v : pyval) (lo hi : Q) :
  no_text v = true -> ~ lo == hi ->
  exists p, normalize_value v (VNum lo) (VNum hi) = Ok (Fin p) /\
            0 <= p <= 100.
Proof.
  intros Hv Hne. destruct v as [| b | q | s]; try discriminate Hv.
  - exists 0. split; [reflexivity | lra].
  - exists 0. split; [reflexivity | lra].
  - rewrite normalize_value_num by (intros E; apply Hne; lra).
    destruct (clamp_percent_Fin (scaled q lo hi)) as (p & E & _).
    exists p. split; [rewrite E; reflexivity |].
    exact (clamp_percent_range _ _ E).
Qed.

Lemma normalize_profile_no_text (v0 v1 v2 v3 v4 : pyval) :
  forallb no_text [v0; v1; v2; v3; v4] = true ->
  exists n0 n1 n2 n3 n4,
    normalize_profile [v0; v1; v2; v3; v4] = Ok [n0; n1; n2; n3; n4] /\
    Forall percentage [n0; n1; n2; n3; n4].
Proof.
  cbn [forallb]. rewrite !andb_true_iff.
  intros (H0 & H1 & H2 & H3 & H4 & _). unfold normalize_profile.
  destruct (normalize_value_percent v0 12 15 H0) as (p0 & -> & B0);
    [discriminate |].
  destruct (normalize_value_percent v1 50 100 H1) as (p1 & -> & B1);
    [discriminate |].
  destruct (normalize_value_percent v2 60 120 H2) as (p2 & -> & B2);
    [discriminate |].
  destruct (normalize_value_percent v3 (-1) 6 H3) as (p3 & -> & B3);
    [discriminate |].
  destruct (normalize_value_percent v4 50 110 H4) as (p4 & -> & B4);
    [discriminate |].
  exists (Fin p0), (Fin p1), (Fin p2), (Fin p3), (Fin p4).
  split; [reflexivity |].
  repeat constructor; eexists; split; try reflexivity; assumption.
Qed.

Lemma normalize_profile_text (v0 v1 v2 v3 v4 : pyval) :
  forallb no_text [v0; v1; v2; v3; v4] = false ->
  normalize_profile [v0; v1; v2; v3; v4] = Raise TypeError.
Proof.
  intros Hf. unfold normalize_profile.
  destruct (no_text v0) eqn:H0;
    [| destruct v0; try discriminate H0; reflexivity].
  destruct (normalize_value_percent v0 12 15 H0) as (p0 & -> & _);
    [discriminate |].
  destruct (no_text v1) eqn:H1;
    [| destruct v1; try discriminate H1; reflexivity].
  destruct (normalize_value_percent v1 50 100 H1) as (p1 & -> & _);
    [discriminate |].
  destruct (no_text v2) eqn:H2;
    [| destruct v2; try discriminate H2; reflexivity].
  destruct (normalize_value_percent v2 60 120 H2) as (p2 & -> & _);
    [discriminate |].
  destruct (no_text v3) eqn:H3;
    [| destruct v3; try discriminate H3; reflexivity].
  destruct (normalize_value_percent v3 (-1) 6 H3) as (p3 & -> & _);
    [discriminate |].
  destruct (no_text v4) eqn:H4;
    [| destruct v4; try discriminate H4; reflexivity].
  cbn in Hf. rewrite H0, H1, H2, H3, H4 in Hf. discriminate Hf.
Qed.

Lemma no_text_of_num (n : num) : no_text (of_num n) = true.
Proof. destruct n; reflexivity. Qed.

Lemma class_profile_normalised (df : gmap string (list pyval)) :
  exists m0 m1 m2 m3 m4,
    normalize_profile (List.map of_num (class_avg df)) = Ok [m0; m1; m2; m3; m4] /\
    Forall percentage [m0; m1; m2; m3; m4].
Proof.
  unfold class_avg. cbn [List.map].
  apply normalize_profile_no_text. cbn [forallb].
  rewrite !no_text_of_num. reflexivity.
Qed.

(** What [create_radar_chart] returns when no raw value is a text. *)
Lemma create_radar_chart_no_text (student_data : gmap string pyval)
    (df : option (gmap string (list pyval))) :
  forallb no_text (actual_values student_data) = true ->
  exists (ns cs : list num),
    length ns = 5%nat /\ Forall percentage ns /\
    length cs = 5%nat /\ Forall percentage cs /\
    create_radar_chart student_data df
    = Ok (match df with
          | Some df =>
              [ {| pname := "班级平均";
                   r := close_shape cs;
                   theta := close_shape categories;
                   customdata := close_shape (List.map of_num (class_avg df)) |} ]
          | None => []
          end ++
          [ {| pname := "个人得分";
               r := close_shape ns;
               theta := close_shape categories;
               customdata := close_shape (actual_values student_data) |} ]).
Proof.
  intros Hv. unfold create_radar_chart.
  unfold actual_values in *.
  destruct (normalize_profile_no_text _ _ _ _ _ Hv)
    as (n0 & n1 & n2 & n3 & n4 & -> & Hn).
  destruct df as [df |].
  - destruct (class_profile_normalised df)
      as (m0 & m1 & m2 & m3 & m4 & Em & Hm).
    exists [n0; n1; n2; n3; n4], [m0; m1; m2; m3; m4].
    repeat split; try assumption.
    cbv zeta. rewrite Em. reflexivity.
  - exists [n0; n1; n2; n3; n4], [n0; n1; n2; n3; n4].
    repeat split; try assumption.
Qed.

(** X4: [create_radar_chart] returns a chart exactly when none of the five
    raw values of the student is a text ([None], NaN and absent fields are
    fine); with a text among them it raises a type error, whatever the
    cohort is. *)
Theorem create_radar_chart_raises_on_text (student_data : gmap string pyval)
    (df : option (gmap string (list pyval))) :
  ((exists traces, create_radar_chart student_data df = Ok traces) <->
   forallb no_text (actual_values student_data) = true) /\
  (create_radar_chart student_data df = Raise TypeError <->
   forallb no_text (actual_values student_data) = false).
Proof.
  destruct (forallb no_text (actual_values student_data)) eqn:Hv.
  - destruct (create_radar_chart_no_text student_data df Hv)
      as (ns & cs & _ & _ & _ & _ & E).
    rewrite E. split; split; try discriminate; auto.
    intros _. eexists. reflexivity.
  - assert (E : create_radar_chart student_data df = Raise TypeError).
    { unfold create_radar_chart. unfold actual_values in *.
      rewrite (normalize_profile_text _ _ _ _ _ Hv). reflexivity. }
    rewrite E. split; split; try discriminate; auto.
    intros [traces Habs]. discriminate Habs.
Qed.

Lemma close_shape_five {A : Type} (l : list A) :
  length l = 5%nat ->
  exists a b c d e, l = [a; b; c; d; e] /\ close_shape l = [a; b; c; d; e; a].
Proof.
  intros Hlen.
  destruct l as [| a [| b [| c [| d [| e [| f l]]]]]]; try discriminate Hlen.
  exists a, b, c, d, e. split; reflexivity.
Qed.

Lemma closed_percentages (ns : list num) :
  length ns = 5%nat -> Forall percentage ns ->
  length (close_shape ns) = 6%nat /\ Forall percentage (close_shape ns) /\
  close_shape ns !! 5%nat = close_shape ns !! 0%nat.
Proof.
  intros Hlen Hall.
  destruct (close_shape_five ns Hlen) as (a & b & c & d & e & -> & ->).
  split; [reflexivity |]. split; [| reflexivity].
  change [a; b; c; d; e; a] with ([a; b; c; d; e] ++ [a]).
  apply Forall_app. split; [exact Hall |].
  constructor; [| constructor].
  inversion Hall; assumption.
Qed.

(** The properties of one trace of a radar chart. *)
Lemma radar_trace_shape (label : string) (ns : list num) (raw : list pyval) :
  length ns = 5%nat -> Forall percentage ns -> length raw = 5%nat ->
  let t := {| pname := label; r := close_shape ns;
              theta := close_shape categories;
              customdata := close_shape raw |} in
  theta t = ["德育"; "智育"; "体测"; "附加分"; "总分"; "德育"] /\
  length (r t) = 6%nat /\ Forall percentage (r t) /\
  r t !! 5%nat = r t !! 0%nat /\
  length (customdata t) = 6%nat /\
  customdata t !! 5%nat = customdata t !! 0%nat.
Proof.
  intros Hn Hp Hraw t. subst t. cbn [theta r customdata].
  destruct (closed_percentages ns Hn Hp) as (H1 & H2 & H3).
  destruct (close_shape_five raw Hraw) as (a & b & c & d & e & -> & ->).
  repeat split; try assumption; reflexivity.
Qed.

(** X5: a radar chart that is returned has one trace, or two with a
    cohort, the student's last; every trace names the five categories and
    the first again, holds six percentages between 0 and 100 of which the
    last repeats the first, and six raw values closed in the same way. *)
Theorem radar_chart_is_closed_and_in_range (student_data : gmap string pyval)
    (df : option (gmap string (list pyval))) (traces : list polar_trace) :
  create_radar_chart student_data df = Ok traces ->
  length traces = (match df with Some _ => 2 | None => 1 end)%nat /\
  Forall (fun t =>
            theta t = ["德育"; "智育"; "体测"; "附加分"; "总分"; "德育"] /\
            length (r t) = 6%nat /\ Forall percentage (r t) /\
            r t !! 5%nat = r t !! 0%nat /\
            length (customdata t) = 6%nat /\
            customdata t !! 5%nat = customdata t !! 0%nat) traces /\
  exists rest t, traces = rest ++ [t] /\ pname t = "个人得分" /\
                 customdata t = close_shape (actual_values student_data).
Proof.
  intros Hok.
  destruct (forallb no_text (actual_values student_data)) eqn:Hv.
  - destruct (create_radar_chart_no_text student_data df Hv)
      as (ns & cs & Hn & Hpn & Hc & Hpc & E).
    rewrite E in Hok. injection Hok as <-.
    pose proof (radar_trace_shape "个人得分" ns (actual_values student_data)
                  Hn Hpn eq_refl) as Hpersonal.
    destruct df as [df |].
    + pose proof (radar_trace_shape "班级平均" cs
                    (List.map of_num (class_avg df)) Hc Hpc eq_refl) as Hclass.
      split; [reflexivity |]. split.
      * constructor; [exact Hclass |]. constructor; [exact Hpersonal |].
        constructor.
      * eexists [_], _. split; [reflexivity |]. split; reflexivity.
    + split; [reflexivity |]. split.
      * constructor; [exact Hpersonal | constructor].
      * exists [].  eexists. split; [reflexivity |]. split; reflexivity.
  - assert (E : create_radar_chart student_data df = Raise TypeError).
    { unfold create_radar_chart. unfold actual_values in *.
      rewrite (normalize_profile_text _ _ _ _ _ Hv). reflexivity. }
    rewrite E in Hok. discriminate Hok.
Qed.

End RadarFurther.

Lemma radar_chart_is_closed_and_in_range_witness :
  exists traces,
    @create_radar_chart decimal_text named_student (Some names_cohort)
    = Ok traces /\
    length traces = 2%nat /\
    exists rest t, traces = rest ++ [t] /\ pname t = "个人得分" /\
              customdata t = [VNum 0; VNum 0; VNum 0; VNum 0; VNum 0; VNum 0].
Proof.
  assert (Hok : exists traces,
             @create_radar_chart decimal_text named_student (Some names_cohort)
             = Ok traces)
    by (eexists; vm_compute; reflexivity).
  destruct Hok as [traces E]. exists traces. split; [exact E |].
  destruct (@radar_chart_is_closed_and_in_range decimal_text named_student
              (Some names_cohort) traces E)
    as (Hlen & _ & rest & t & Hin & Hn & Hc).
  split; [exact Hlen |]. exists rest, t. split; [exact Hin |].
  split; [exact Hn |]. rewrite Hc. reflexivity.
Defined.

(** ** The coerced copy *)

Section CoercionFurther.
Context `{TextNumbers}.

Lemma to_numeric_of_num (n : num) : to_numeric (of_num n) = n.
Proof. destruct n; reflexivity. Qed.

Lemma coerce_fields_cons (key : string) (keys : list string)
    (m : gmap string pyval) :
  coerce_fields (key :: keys) m
  = coerce_fields keys
      match m !! key with
      | Some v => <[key := of_num (to_numeric v)]> m
      | None => m
      end.
Proof. reflexivity. Qed.

Lemma coerce_step_lookup (key k : string) (m : gmap string pyval) :
  match m !! key with
  | Some v => <[key := of_num (to_numeric v)]> m
  | None => m
  end !! k
  = if decide (key = k) then (fun v => of_num (to_numeric v)) <$> m !! k
    else m !! k.
Proof.
  destruct (decide (key = k)) as [-> | Hne].
  - destruct (m !! k) as [v |] eqn:E.
    + rewrite lookup_insert_eq. reflexivity.
    + rewrite E. reflexivity.
  - destruct (m !! key) as [v |]; [| reflexivity].
    rewrite lookup_insert_ne by exact Hne. reflexivity.
Qed.

(** X7: the coerced copy has the fields of the selected record and no
    others; a listed field holds what [pd.to_numeric] makes of the cell (a
    number stays, any other cell becomes a number or a NaN), also when the
    key is listed twice; a field that is not listed is left as it is. *)
Theorem coerce_fields_lookup (keys : list string) (m : gmap string pyval)
    (k : string) :
  coerce_fields keys m !! k
  = if existsb (String.eqb k) keys
    then (fun v => of_num (to_numeric v)) <$> m !! k
    else m !! k.
Proof.
  revert m. induction keys as [| key keys IH]; intros m; [reflexivity |].
  rewrite coerce_fields_cons, IH, !coerce_step_lookup. cbn [existsb].
  destruct (decide (key = k)) as [-> | Hne].
  - rewrite String.eqb_refl. cbn [orb].
    destruct (existsb (String.eqb k) keys); [| reflexivity].
    destruct (m !! k) as [v |]; [| reflexivity].
    cbn. rewrite to_numeric_of_num. reflexivity.
  - assert (E : String.eqb k key = false).
    { apply String.eqb_neq. congruence. }
    rewrite E. reflexivity.
Qed.

End CoercionFurther.

(** ** The tabs of [main] *)

Section TabsFurther.
Context `{TextNumbers}.
Local Open Scope Q_scope.

Lemma is_number_no_text (v : pyval) : is_number v = true -> no_text v = true.
Proof. destruct v; try discriminate; reflexivity. Qed.

Lemma coerced_actual_values_no_text (selected_student : gmap string pyval) :
  forallb no_text (actual_values (coerce_fields radar_keys selected_student))
  = true.
Proof.
  unfold actual_values. cbn [forallb].
  rewrite !andb_true_iff.
  repeat split;
    try (apply is_number_no_text, coerced_field_number;
         [cbn; tauto | reflexivity]).
  apply is_number_no_text, coerced_field_number; [cbn; tauto |].
  apply coerced_field_number; [cbn; tauto | reflexivity].
Qed.

(** X6: the radar chart of the tab is drawn for every selected record and
    every cohort, texts among the scores included: the coercion turns them
    into missing values first.  It has the two traces, the cohort's and
    the student's, each of percentages between 0 and 100. *)
Theorem tab3_radar_chart_always_drawn (selected_student : gmap string pyval)
    (df : gmap string (list pyval)) :
  exists class personal,
    tab3_radar_chart selected_student df = Ok [class; personal] /\
    pname class = "班级平均" /\ pname personal = "个人得分" /\
    length (r class) = 6%nat /\ Forall percentage (r class) /\
    length (r personal) = 6%nat /\ Forall percentage (r personal).
Proof.
  unfold tab3_radar_chart.
  destruct (create_radar_chart_no_text
              (coerce_fields radar_keys selected_student) (Some df)
              (coerced_actual_values_no_text selected_student))
    as (ns & cs & Hn & Hpn & Hc & Hpc & E).
  rewrite E. eexists _, _. split; [reflexivity |].
  cbn [pname r].
  destruct (closed_percentages ns Hn Hpn) as (L1 & P1 & _).
  destruct (closed_percentages cs Hc Hpc) as (L2 & P2 & _).
  repeat split; assumption.
Qed.

Lemma coerce_fields_at (keys : list string) (m : gmap string pyval)
    (k : string) :
  coerce_fields keys m !! k
  = if existsb (String.eqb k) keys
    then (fun v => of_num (to_numeric v)) <$> m !! k
    else m !! k.
Proof.
  revert m. induction keys as [| key keys IH]; intros m; [reflexivity |].
  change (coerce_fields (key :: keys) m)
    with (coerce_fields keys
            match m !! key with
            | Some v => <[key := of_num (to_numeric v)]> m
            | None => m
            end).
  rewrite IH. cbn [existsb].
  destruct (decide (key = k)) as [-> | Hne].
  - rewrite String.eqb_refl. cbn [orb].
    destruct (m !! k) as [v |] eqn:E.
    + rewrite lookup_insert_eq. cbn.
      destruct (existsb (String.eqb k) keys); [| reflexivity].
      destruct v as [| b | q | t]; cbn; try reflexivity.
      destruct (numeric_of_str t); reflexivity.
    + rewrite E. destruct (existsb (String.eqb k) keys); reflexivity.
  - assert (E : String.eqb k key = false).
    { apply String.eqb_neq. congruence. }
    rewrite E. cbn [orb].
    destruct (m !! key) as [v |]; [| reflexivity].
    rewrite lookup_insert_ne by exact Hne. reflexivity.
Qed.

(** The score shown for a coerced cell, with 0 for an absent one. *)
Lemma shown_coerced_cell (cell : option pyval) (dflt : pyval) :
  (if pd_notna match (fun v => of_num (to_numeric v)) <$> cell with
               | Some v => v
               | None => dflt
               end
   then match (fun v => of_num (to_numeric v)) <$> cell with
        | Some v => v
        | None => dflt
        end
   else VNum 0)
  = match cell with
    | Some _ => score_shown cell
    | None => if pd_notna dflt then dflt else VNum 0
    end.
Proof.
  destruct cell as [[| b | q | t] |]; cbn; try reflexivity.
  destruct (numeric_of_str t); reflexivity.
Qed.

(** X15: the five detailed scores under the radar chart, for every
    selected record: a cell that is a number is shown as that number, a
    text as the number that pandas reads it as, and a cell that is absent,
    missing or a text that is no number is shown as 0; the extra points
    are taken from 23-24附加分 only when the record has no field 附加分 at
    all.  So every score shown is a number, never NaN and never a text. *)
Theorem tab3_detailed_scores_shown (selected_student : gmap string pyval) :
  tab3_detailed_scores selected_student
  = [ ("德育", score_shown (selected_student !! "德育"));
      ("智育", score_shown (selected_student !! "智育"));
      ("体测", score_shown (selected_student !! "体测成绩"));
      ("附加分", score_shown match selected_student !! "附加分" with
                              | Some v => Some v
                              | None => selected_student !! "23-24附加分"
                              end);
      ("总分", score_shown (selected_student !! "测评总分")) ] /\
  Forall (fun m => exists q, snd m = VNum q)
         (tab3_detailed_scores selected_student).
Proof.
  assert (Hnum : forall cell, exists q, score_shown cell = VNum q).
  { intros [[| b | q | t] |]; cbn; try (eexists; reflexivity).
    destruct (numeric_of_str t); eexists; reflexivity. }
  assert (E : tab3_detailed_scores selected_student
              = [ ("德育", score_shown (selected_student !! "德育"));
                  ("智育", score_shown (selected_student !! "智育"));
                  ("体测", score_shown (selected_student !! "体测成绩"));
                  ("附加分",
                   score_shown match selected_student !! "附加分" with
                               | Some v => Some v
                               | None => selected_student !! "23-24附加分"
                               end);
                  ("总分", score_shown (selected_student !! "测评总分")) ]).
  { unfold tab3_detailed_scores, detailed_scores, get.
    cbn [List.map fst snd].
    rewrite !coerce_fields_at. cbn [existsb radar_keys String.eqb Ascii.eqb
                                     Bool.eqb orb andb].
    repeat f_equal.
    - rewrite shown_coerced_cell.
      destruct (selected_student !! "德育"); reflexivity.
    - rewrite shown_coerced_cell.
      destruct (selected_student !! "智育"); reflexivity.
    - rewrite shown_coerced_cell.
      destruct (selected_student !! "体测成绩"); reflexivity.
    - destruct (selected_student !! "附加分") as [v |].
      + apply (shown_coerced_cell (Some v)).
      + cbn [fmap option_fmap option_map].
        rewrite shown_coerced_cell.
        destruct (selected_student !! "23-24附加分"); reflexivity.
    - rewrite shown_coerced_cell.
      destruct (selected_student !! "测评总分"); reflexivity. }
  split; [exact E |].
  rewrite E. repeat constructor; apply Hnum.
Qed.

End TabsFurther.

(** ** The grade-point chart, further *)

Section GpaChartFurther.
Context `{TextNumbers}.
Local Open Scope Q_scope.

(** Whether a period has a cell that is present and not missing. *)
Lemma collect_semester_semesters (student_data : gmap string pyval)
    (st : chart_state) (sem_num : string) :
  semesters (collect_semester student_data st sem_num)
  = semesters st ++
    (if match student_data !! (sem_num +:+ "绩点") with
        | Some v => pd_notna v
        | None => false
        end
     then [sem_num] else []).
Proof.
  unfold collect_semester.
  destruct (student_data !! (sem_num +:+ "绩点")) as [v |];
    [| rewrite app_nil_r; reflexivity].
  destruct (pd_notna v) eqn:E; [| rewrite app_nil_r; reflexivity].
  destruct v as [| b | q | s]; try discriminate E; cbn; try reflexivity.
  destruct (float_of_str s); reflexivity.
Qed.

(** X9: the labels that are collected are those of the three periods whose
    cell is present and not missing, in the order of the periods and each
    once; and there are never more values than labels. *)
Theorem collected_labels_are_the_present_periods
    (student_data : gmap string pyval) :
  semesters (collect_gpas student_data)
  = List.filter
      (fun sem_num =>
         match student_data !! (sem_num +:+ "绩点") with
         | Some v => pd_notna v
         | None => false
         end)
      ["第一学期"; "第二学期"; "第三学期"] /\
  (length (gpas (collect_gpas student_data))
   <= length (semesters (collect_gpas student_data)))%nat.
Proof.
  split; [| apply collect_gpas_lengths].
  unfold collect_gpas, semester_names. cbn [fold_left List.filter].
  rewrite !collect_semester_semesters. cbn [semesters app].
  destruct (match student_data !! ("第一学期" +:+ "绩点") with
            | Some v => pd_notna v | None => false end);
    destruct (match student_data !! ("第二学期" +:+ "绩点") with
              | Some v => pd_notna v | None => false end);
    destruct (match student_data !! ("第三学期" +:+ "绩点") with
              | Some v => pd_notna v | None => false end);
    reflexivity.
Qed.

Lemma charted_data_length (student_data : gmap string pyval)
    (df : option (gmap string (list pyval))) :
  length (data (gpa_chart_state student_data df))
  = (1 + (match df with Some _ => 1 | None => 0 end)
     + (if Nat.leb 2 (length (gpas (with_fallback (collect_gpas student_data))))
        then 2 else 0))%nat.
Proof.
  unfold gpa_chart_state.
  set (st := with_fallback (collect_gpas student_data)).
  assert (Hst : data st = []).
  { subst st. unfold with_fallback.
    destruct (use_default _); cbn; apply collect_gpas_data. }
  assert (Eg : gpas (add_class_average df (add_personal st)) = gpas st)
    by (rewrite (proj2 (add_class_average_series _ _)); reflexivity).
  assert (Hbase : length (data (add_class_average df (add_personal st)))
                  = (1 + match df with Some _ => 1 | None => 0 end)%nat).
  { destruct df; cbn; rewrite Hst; reflexivity. }
  unfold add_trend at 1. rewrite Eg.
  destruct (Nat.leb 2 (length (gpas st))).
  - cbn [add_trace data]. rewrite !length_app, Hbase. cbn. lia.
  - rewrite Hbase. lia.
Qed.

Lemma charted_first_trace (student_data : gmap string pyval)
    (df : option (gmap string (list pyval))) :
  let st := with_fallback (collect_gpas student_data) in
  data (gpa_chart_state student_data df) !! 0%nat
  = Some {| name := "个人绩点"; xs := semesters st;
            ys := List.map Fin (gpas st) |}.
Proof.
  intros st. unfold gpa_chart_state. fold st.
  assert (Hst : data st = []).
  { subst st. unfold with_fallback.
    destruct (use_default _); cbn; apply collect_gpas_data. }
  assert (Hpre : exists more,
             data (add_trend (add_class_average df (add_personal st)))
             = {| name := "个人绩点"; xs := semesters st;
                  ys := List.map Fin (gpas st) |} :: more).
  { unfold add_trend.
    destruct (Nat.leb 2 _); destruct df; cbn; rewrite Hst; cbn;
      eexists; reflexivity. }
  destruct Hpre as [more ->]. reflexivity.
Qed.

(** X8: [create_gpa_chart] returns a figure for every record and cohort,
    without an index out of range.  The figure has the student's trace,
    one more with a cohort, and two more (trend line and projected point)
    when two values or more are charted; its reference line runs from the
    first to the last label that is charted. *)
Theorem create_gpa_chart_always_returns (student_data : gmap string pyval)
    (df : option (gmap string (list pyval))) :
  let st := with_fallback (collect_gpas student_data) in
  exists fig,
    create_gpa_chart student_data df = Ok fig /\
    length (fig_data fig)
    = (1 + (match df with Some _ => 1 | None => 0 end)
       + (if Nat.leb 2 (length (gpas st)) then 2 else 0))%nat /\
    fig_data fig !! 0%nat
    = Some {| name := "个人绩点"; xs := semesters st;
              ys := List.map Fin (gpas st) |} /\
    List.head (semesters st) = Some (line_x0 fig) /\
    List.last (semesters st) (line_x0 fig) = line_x1 fig.
Proof.
  intros st.
  destruct (create_gpa_chart_returns student_data df) as [first Efig].
  pose proof (gpa_chart_state_semesters student_data df) as Es. fold st in Es.
  pose proof (with_fallback_two_labels (collect_gpas student_data)) as Hlen.
  fold st in Hlen.
  eexists. split; [exact Efig |]. cbn [fig_data line_x0 line_x1].
  split; [apply charted_data_length |]. split; [| split].
  - apply charted_first_trace.
  - unfold create_gpa_chart in Efig. rewrite Es in Efig.
    destruct (semesters st) as [| a l]; [cbn in Hlen; lia |].
    unfold reference_line, mbind, result_bind in Efig.
    destruct (Nat.ltb 1 (length (a :: l)));
      injection Efig as E1 _; subst first; reflexivity.
  - rewrite Es. reflexivity.
Qed.

End GpaChartFurther.

(** ** The trend line, further *)

Section TrendFurther.
Context `{TextNumbers}.
Local Open Scope Q_scope.

Lemma squared_error_nonneg (pts : list (Q * Q)) (c : Q * Q) :
  0 <= squared_error pts c.
Proof.
  unfold squared_error. induction pts as [| p pts IH].
  - cbn. lra.
  - rewrite map_cons, Qsum_cons.
    pose proof (Qsquare_nonneg (snd p - polyval c (fst p))). lra.
Qed.

Lemma squared_error_on_line (pts : list (Q * Q)) (a b : Q) :
  Forall (fun p => snd p == a * fst p + b) pts ->
  squared_error pts (a, b) == 0.
Proof.
  unfold squared_error, polyval. cbn [fst snd].
  induction 1 as [| p pts Hp Hrest IH].
  - reflexivity.
  - rewrite map_cons, Qsum_cons, IH, Hp. ring.
Qed.

(** A series that lies on a line is fitted by that line. *)
Lemma polyfit1_recovers_line (ys : list Q) (a b x : Q) :
  (2 <= length ys)%nat ->
  Forall (fun p => snd p == a * fst p + b) (combine (arange (length ys)) ys) ->
  polyval (polyfit1 (arange (length ys)) ys) x == a * x + b.
Proof.
  intros Hn Hline.
  assert (Hls : least_squares_line (combine (arange (length ys)) ys) (a, b)).
  { intros c'. rewrite (squared_error_on_line _ _ _ Hline).
    apply squared_error_nonneg. }
  rewrite <- (least_squares_line_polyval ys (a, b) x Hn Hls).
  reflexivity.
Qed.

(** The figure for a series of two values or more, with the projected value
    in terms of the fit. *)
Lemma gpa_chart_prediction (student_data : gmap string pyval)
    (df : option (gmap string (list pyval))) :
  let st := with_fallback (collect_gpas student_data) in
  let n := length (gpas st) in
  let c := polyfit1 (arange n) (gpas st) in
  (2 <= n)%nat ->
  exists (next : Q) (fig : gpa_figure),
    create_gpa_chart student_data df = Ok fig /\
    fig_data fig
    = data (add_class_average df (add_personal st)) ++
      [ {| name := "趋势预测";
           xs := semesters st ++ [prediction_label (n + 1)];
           ys := List.map Fin (List.map (polyval c) (arange n)) ++ [Fin next] |};
        {| name := "预测绩点";
           xs := [prediction_label (n + 1)];
           ys := [Fin next] |} ] /\
    next == clamp_to_range 0 4 (polyval c (inject_Z (Z.of_nat n))).
Proof.
  intros st n c Hn.
  destruct (clamp_gpa_Fin (polyval c (Qlen (gpas st))))
    as (next & Enext & Hclamp & _).
  destruct (create_gpa_chart_returns student_data df) as [first Efig].
  exists next. eexists. split; [exact Efig |]. cbn [fig_data].
  split; [| exact Hclamp].
  unfold gpa_chart_state. fold st.
  assert (Eg : gpas (add_class_average df (add_personal st)) = gpas st)
    by (rewrite (proj2 (add_class_average_series _ _)); reflexivity).
  assert (Es : semesters (add_class_average df (add_personal st))
               = semesters st)
    by (rewrite (proj1 (add_class_average_series _ _)); reflexivity).
  rewrite add_trend_data by (rewrite Eg; exact Hn).
  rewrite Eg, Es. fold n. fold c. rewrite Enext. reflexivity.
Qed.

(** X10: a series of two values or more that lies on a line, the value at
    position i being a * i + b, is continued on that line: the projected
    point is a * n + b, clamped to [0, 4].  A constant series is continued
    by its constant. *)
Theorem collinear_series_is_continued (student_data : gmap string pyval)
    (df : option (gmap string (list pyval))) (a b : Q) :
  let st := with_fallback (collect_gpas student_data) in
  let n := length (gpas st) in
  (2 <= n)%nat ->
  Forall (fun p => snd p == a * fst p + b) (combine (arange n) (gpas st)) ->
  exists (next : Q) (fig : gpa_figure),
    create_gpa_chart student_data df = Ok fig /\
    In {| name := "预测绩点"; xs := [prediction_label (n + 1)];
          ys := [Fin next] |} (fig_data fig) /\
    next == clamp_to_range 0 4 (a * inject_Z (Z.of_nat n) + b).
Proof.
  intros st n Hn Hline.
  destruct (gpa_chart_prediction student_data df Hn)
    as (next & fig & Efig & Edata & Hnext).
  exists next, fig. split; [exact Efig |]. split.
  - fold st n in Edata. rewrite Edata. apply in_or_app. right. right. left.
    reflexivity.
  - fold st n in Hnext. rewrite Hnext. apply clamp_to_range_compat.
    apply polyfit1_recovers_line; assumption.
Qed.

(** X11: with exactly two values g0 and g1 the trend line passes through
    both, and the projected point is 2 * g1 - g0, clamped to [0, 4]. *)
Theorem two_values_are_extrapolated (student_data : gmap string pyval)
    (df : option (gmap string (list pyval))) (g0 g1 : Q) :
  gpas (with_fallback (collect_gpas student_data)) = [g0; g1] ->
  exists (f0 f1 next : Q) (labels : list string) (fig : gpa_figure),
    create_gpa_chart student_data df = Ok fig /\
    In {| name := "趋势预测"; xs := labels;
          ys := [Fin f0; Fin f1; Fin next] |} (fig_data fig) /\
    In {| name := "预测绩点"; xs := ["第3学期(预测)"]; ys := [Fin next] |}
       (fig_data fig) /\
    f0 == g0 /\ f1 == g1 /\ next == clamp_to_range 0 4 (2 * g1 - g0).
Proof.
  intros Eg.
  assert (Hn : (2 <= length (gpas (with_fallback
                                     (collect_gpas student_data))))%nat)
    by (rewrite Eg; cbn; lia).
  destruct (gpa_chart_prediction student_data df Hn)
    as (next & fig & Efig & Edata & Hnext).
  assert (Hline : Forall (fun p => snd p == (g1 - g0) * fst p + g0)
                         (combine (arange (length [g0; g1])) [g0; g1])).
  { cbn. repeat constructor; cbn; ring. }
  pose proof (fun x => polyfit1_recovers_line [g0; g1] (g1 - g0) g0 x
                         (le_n 2) Hline) as Hfit.
  rewrite Eg in Edata, Hnext.
  change (length [g0; g1]) with 2%nat in *.
  eexists _, _, next, _, fig. split; [exact Efig |].
  split; [| split; [| split; [| split]]].
  - rewrite Edata. apply in_or_app. right. left. reflexivity.
  - rewrite Edata. apply in_or_app. right. right. left. reflexivity.
  - rewrite Hfit. change (inject_Z (Z.of_nat 0)) with 0. ring.
  - rewrite Hfit. change (inject_Z (Z.of_nat 1)) with 1. ring.
  - rewrite Hnext. apply clamp_to_range_compat. rewrite Hfit.
    change (inject_Z (Z.of_nat 2)) with 2. ring.
Qed.

Lemma map_snd_combine_same_length {A B : Type} (l1 : list A) (l2 : list B) :
  length l1 = length l2 -> List.map snd (combine l1 l2) = l2.
Proof.
  revert l2. induction l1 as [| x l1 IH]; intros [| y l2] Hlen;
    cbn in *; try discriminate; try reflexivity.
  f_equal. apply IH. congruence.
Qed.

Lemma Qsum_map_polyval (c : Q * Q) (l : list Q) :
  Qsum (List.map (polyval c) l) == fst c * Qsum l + Qlen l * snd c.
Proof.
  induction l as [| x l IH].
  - change (Qlen (@nil Q)) with 0. cbn. ring.
  - rewrite map_cons, !Qsum_cons, Qlen_cons, IH. unfold polyval. ring.
Qed.

(** X12: the values of the trend line over the positions of the series add
    up to what the series adds up to, so the line and the series have the
    same mean. *)
Theorem trend_line_keeps_the_sum (st : chart_state) :
  (2 <= length (gpas st))%nat ->
  exists (fitted : list Q) (next : num) (labels : list string) (point : trace),
    data (add_trend st)
    = data st ++ [ {| name := "趋势预测"; xs := labels;
                      ys := List.map Fin fitted ++ [next] |}; point ] /\
    length fitted = length (gpas st) /\
    Qsum fitted == Qsum (gpas st).
Proof.
  intros Hn. rewrite add_trend_data by exact Hn.
  eexists _, _, _, _. split; [reflexivity |]. split.
  - rewrite length_map. apply length_arange.
  - rewrite Qsum_map_polyval.
    destruct (arange_fit_conditions (gpas st) Hn) as [Hlen HD].
    destruct (polyfit1_normal_equations (arange (length (gpas st))) (gpas st)
                Hlen HD) as [E1 _].
    rewrite sum_x_arange, Qlen_combine_arange in E1.
    unfold sum_y in E1.
    rewrite map_snd_combine_same_length in E1 by apply length_arange.
    unfold Qlen at 1. rewrite length_arange. exact E1.
Qed.

End TrendFurther.

Lemma collinear_series_is_continued_witness :
  (2 <= length (gpas (with_fallback
                        (@collect_gpas decimal_text rising_student))))%nat /\
  exists (next : Q) (fig : gpa_figure),
    @create_gpa_chart decimal_text rising_student None = Ok fig /\
    In {| name := "预测绩点"; xs := ["第4学期(预测)"]; ys := [Fin next] |}
       (fig_data fig) /\
    (next == 3.5)%Q.
Proof.
  assert (Hn : (2 <= length (gpas (with_fallback
                                     (@collect_gpas decimal_text
                                        rising_student))))%nat)
    by (vm_compute; lia).
  split; [exact Hn |].
  destruct (@collinear_series_is_continued decimal_text rising_student None
              (1 / 2)%Q 2%Q Hn)
    as (next & fig & Efig & Hin & Hnext).
  { vm_compute. repeat constructor. }
  exists next, fig. split; [exact Efig |]. split; [exact Hin |].
  rewrite Hnext. vm_compute. reflexivity.
Defined.

Lemma two_values_are_extrapolated_witness :
  gpas (with_fallback (@collect_gpas decimal_text two_term_student))
  = [3.5; 3.9]%Q /\
  exists (next : Q) (fig : gpa_figure),
    @create_gpa_chart decimal_text two_term_student None = Ok fig /\
    In {| name := "预测绩点"; xs := ["第3学期(预测)"]; ys := [Fin next] |}
       (fig_data fig) /\
    (next == 4)%Q.
Proof.
  assert (Eg : gpas (with_fallback (@collect_gpas decimal_text two_term_student))
               = [3.5; 3.9]%Q) by (vm_compute; reflexivity).
  split; [exact Eg |].
  destruct (@two_values_are_extrapolated decimal_text two_term_student None
              3.5%Q 3.9%Q Eg)
    as (f0 & f1 & next & labels & fig & Efig & _ & Hin & _ & _ & Hnext).
  exists next, fig. split; [exact Efig |]. split; [exact Hin |].
  rewrite Hnext. vm_compute. reflexivity.
Defined.

Lemma trend_line_keeps_the_sum_witness :
  (2 <= length (gpas (add_personal
                        (@collect_gpas decimal_text sample_student))))%nat /\
  exists (fitted : list Q),
    length fitted = 3%nat /\ (Qsum fitted == 9.8)%Q.
Proof.
  assert (Hn : (2 <= length (gpas (add_personal
                                     (@collect_gpas decimal_text
                                        sample_student))))%nat)
    by (vm_compute; lia).
  split; [exact Hn |].
  destruct (trend_line_keeps_the_sum
              (add_personal (@collect_gpas decimal_text sample_student)) Hn)
    as (fitted & next & labels & point & _ & Hlen & Hsum).
  exists fitted. split.
  - rewrite Hlen. vm_compute. reflexivity.
  - rewrite Hsum. vm_compute. reflexivity.
Defined.


(** ** The grade-point tab *)

Section GpaTabFurther.
Context `{TextNumbers}.
Local Open Scope Q_scope.

Lemma coerced_gpa_cell_number (selected_student : gmap string pyval)
    (key : string) (v : pyval) :
  In key gpa_keys ->
  coerce_fields gpa_keys selected_student !! key = Some v ->
  is_number v = true.
Proof.
  intros Hin Hv.
  apply (coerce_fields_number gpa_keys [] selected_student) in Hv; auto.
Qed.

(** X13: in the grade-point tab, where the record is coerced first, the
    student's trace always has one value per label; it shows the sample
    series exactly when fewer than two grade points of the record are
    numbers after coercion, and the collected series otherwise. *)
Theorem tab2_trace_is_aligned (selected_student : gmap string pyval)
    (df : gmap string (list pyval)) :
  let st := collect_gpas (coerce_fields gpa_keys selected_student) in
  exists (fig : gpa_figure) (personal : trace),
    tab2_gpa_chart selected_student df = Ok fig /\
    fig_data fig !! 0%nat = Some personal /\
    length (xs personal) = length (ys personal) /\
    ((length (gpas st) < 2)%nat ->
     xs personal = ["第一学期"; "第二学期"; "第三学期"] /\
     ys personal = [Fin 3.2; Fin 3.5; Fin 3.1]) /\
    ((2 <= length (gpas st))%nat ->
     xs personal = semesters st /\ ys personal = List.map Fin (gpas st)).
Proof.
  intros st. unfold tab2_gpa_chart.
  destruct (create_gpa_chart_returns
              (coerce_fields gpa_keys selected_student) (Some df))
    as [first Efig].
  destruct (tab2_fallback_by_values selected_student) as [Hlen Hfew].
  fold st in Hlen, Hfew.
  eexists _, _. split; [exact Efig |]. cbn [fig_data].
  split; [apply charted_first_trace |]. fold st. cbn [xs ys].
  split; [| split].
  - rewrite length_map.
    destruct (Nat.lt_ge_cases (length (gpas st)) 2) as [Hlt | Hge].
    + destruct (Hfew Hlt) as [-> ->]. reflexivity.
    + rewrite with_fallback_kept by lia. symmetry. exact Hlen.
  - intros Hlt. destruct (Hfew Hlt) as [-> ->]. split; reflexivity.
  - intros Hge. rewrite with_fallback_kept by lia. split; reflexivity.
Qed.

Lemma collect_semester_gpas_number (m : gmap string pyval) (st : chart_state)
    (sem_num : string) :
  (forall v, m !! (sem_num +:+ "绩点") = Some v -> is_number v = true) ->
  List.map VNum (gpas (collect_semester m st sem_num))
  = List.map VNum (gpas st) ++
    match m !! (sem_num +:+ "绩点") with
    | Some v => if pd_notna v then [v] else []
    | None => []
    end.
Proof.
  intros Hnum. unfold collect_semester.
  destruct (m !! (sem_num +:+ "绩点")) as [v |];
    [| rewrite app_nil_r; reflexivity].
  specialize (Hnum v eq_refl).
  destruct v as [| b | q | s]; try discriminate Hnum; cbn.
  - rewrite app_nil_r. reflexivity.
  - rewrite map_app. reflexivity.
Qed.

(** On the coerced copy the average is taken over the values that the
    chart collects. *)
Lemma average_cells_coerced (selected_student : gmap string pyval) :
  average_cells (coerce_fields gpa_keys selected_student)
  = List.map VNum
      (gpas (collect_gpas (coerce_fields gpa_keys selected_student))).
Proof.
  unfold average_cells, collect_gpas, semester_names.
  cbn [flat_map fold_left].
  rewrite !collect_semester_gpas_number
    by (intros v Hv; apply (coerced_gpa_cell_number selected_student) in Hv;
        auto; cbn; tauto).
  cbn [gpas List.map app]. rewrite app_nil_r, app_assoc. reflexivity.
Qed.

Lemma to_nums_numbers (l : list Q) : to_nums (List.map VNum l) = Ok (List.map Fin l).
Proof.
  induction l as [| q l IH]; [reflexivity |].
  cbn. unfold mbind, result_bind in *. cbn. rewrite IH. reflexivity.
Qed.

Lemma finite_values_Fin (l : list Q) : finite_values (List.map Fin l) = l.
Proof.
  unfold finite_values. induction l as [| q l IH]; [reflexivity |].
  cbn. f_equal. exact IH.
Qed.

Lemma np_mean_numbers (q : Q) (l : list Q) :
  np_mean (List.map VNum (q :: l))
  = Ok (Fin (Qsum (q :: l) / Qlen (List.map Fin (q :: l)))).
Proof.
  unfold np_mean. rewrite to_nums_numbers.
  unfold mbind, result_bind.
  assert (Hall : forallb (fun n => match n with Fin _ => true | NaN => false end)
                         (List.map Fin (q :: l)) = true).
  { apply forallb_forall. intros n Hin. apply in_map_iff in Hin.
    destruct Hin as (x & <- & _). reflexivity. }
  rewrite Hall, finite_values_Fin. reflexivity.
Qed.

(** X14: the average under the chart never fails in the tab; it is the
    arithmetic mean of the student's own grade points that are numbers
    after coercion, also when the chart above it shows the sample series,
    and there is no average when there is no such grade point. *)
Theorem tab2_average_is_mean_of_own_values (selected_student : gmap string pyval) :
  let own := gpas (collect_gpas (coerce_fields gpa_keys selected_student)) in
  match own with
  | [] => tab2_average selected_student = Ok None
  | _ :: _ =>
      exists m, tab2_average selected_student = Ok (Some (Fin m)) /\
                m * Qlen own == Qsum own
  end.
Proof.
  intros own. unfold tab2_average, average_gpa.
  rewrite average_cells_coerced. fold own.
  destruct own as [| q l]; [reflexivity |].
  cbn [List.map]. change (VNum q :: List.map VNum l) with (List.map VNum (q :: l)).
  rewrite np_mean_numbers. cbn [List.map].
  eexists. split; [reflexivity |].
  assert (Hpos : 0 < Qlen (q :: l)) by (apply Qlen_pos; cbn; lia).
  assert (E : Qlen (Fin q :: List.map Fin l) == Qlen (q :: l)).
  { unfold Qlen. cbn [length]. rewrite length_map. reflexivity. }
  rewrite E. field. lra.
Qed.

End GpaTabFurther.


(** ** The coercion at load *)

Section LoadFurther.
Context `{TextNumbers}.

Lemma coerce_columns_cons (col : string) (cols : list string)
    (df : gmap string (list pyval)) :
  coerce_columns (col :: cols) df
  = coerce_columns cols
      match df !! col with
      | Some c => <[col := List.map (fun v => of_num (to_numeric v)) c]> df
      | None => df
      end.
Proof. reflexivity. Qed.

Lemma coerce_column_twice (c : list pyval) :
  List.map (fun v => of_num (to_numeric v))
           (List.map (fun v => of_num (to_numeric v)) c)
  = List.map (fun v => of_num (to_numeric v)) c.
Proof.
  rewrite List.map_map. apply List.map_ext. intros v.
  rewrite to_numeric_of_num. reflexivity.
Qed.

Lemma coerce_columns_lookup (cols : list string)
    (df : gmap string (list pyval)) (k : string) :
  coerce_columns cols df !! k
  = if existsb (String.eqb k) cols
    then List.map (fun v => of_num (to_numeric v)) <$> df !! k
    else df !! k.
Proof.
  revert df. induction cols as [| col cols IH]; intros df; [reflexivity |].
  rewrite coerce_columns_cons, IH. cbn [existsb].
  destruct (decide (col = k)) as [-> | Hne].
  - rewrite String.eqb_refl. cbn [orb].
    destruct (df !! k) as [c |] eqn:E.
    + rewrite lookup_insert_eq. cbn.
      destruct (existsb (String.eqb k) cols); [| reflexivity].
      rewrite coerce_column_twice. reflexivity.
    + rewrite E. destruct (existsb (String.eqb k) cols); reflexivity.
  - assert (E : String.eqb k col = false).
    { apply String.eqb_neq. congruence. }
    rewrite E. cbn [orb].
    destruct (df !! col) as [c |]; [| reflexivity].
    rewrite lookup_insert_ne by exact Hne. reflexivity.
Qed.

Lemma column_mean_coerced (c : list pyval) :
  column_mean (List.map (fun v => of_num (to_numeric v)) c) = column_mean c.
Proof.
  unfold column_mean. rewrite List.map_map. f_equal.
  apply List.map_ext. intros v. apply to_numeric_of_num.
Qed.

(** X16: making columns numeric when the sheet is loaded changes no cohort
    mean: for every column, listed or not, the mean over the coerced cohort
    is the mean over the cohort as loaded, and so are the five means of the
    radar chart; the cohort keeps its columns and their lengths. *)
Theorem load_coercion_keeps_the_means (cols : list string)
    (df : gmap string (list pyval)) :
  (forall col otherwise,
     class_mean_or (coerce_columns cols df) col otherwise
     = class_mean_or df col otherwise) /\
  class_avg (coerce_columns cols df) = class_avg df /\
  (forall col, length <$> coerce_columns cols df !! col = length <$> df !! col).
Proof.
  assert (Hmean : forall col otherwise,
             class_mean_or (coerce_columns cols df) col otherwise
             = class_mean_or df col otherwise).
  { intros col otherwise. unfold class_mean_or.
    rewrite coerce_columns_lookup.
    destruct (existsb (String.eqb col) cols); [| reflexivity].
    destruct (df !! col) as [c |]; [| reflexivity].
    cbn. apply column_mean_coerced. }
  split; [exact Hmean |]. split.
  - unfold class_avg. rewrite !Hmean. reflexivity.
  - intros col. rewrite coerce_columns_lookup.
    destruct (existsb (String.eqb col) cols); [| reflexivity].
    destruct (df !! col) as [c |]; [| reflexivity].
    cbn. rewrite length_map. reflexivity.
Qed.

End LoadFurther.

(** ** The cards and the statistics, further *)

Section CardsFurther.
Local Open Scope Q_scope.

Lemma card_of_cell (v : pyval) :
  v <> VNaN false ->
  help_needed (display_help_status (<[help_field := v]> ∅))
  = pd_notna v && negb (py_eq v (VStr "无")).
Proof.
  intros Hv. unfold display_help_status, get. cbn [help_needed].
  rewrite lookup_insert_eq.
  destruct v as [| [|] | q | s]; cbn; try reflexivity.
  - contradiction.
  - rewrite orb_false_r. reflexivity.
Qed.

(** X17: on a column without a NaN other than the [np.nan] object, the
    count of students who need help is the number of cells for which the
    card of a student with that cell says so. *)
Theorem help_count_agrees_with_cards (df : gmap string (list pyval))
    (col : list pyval) :
  df !! help_field = Some col ->
  Forall (fun v => v <> VNaN false) col ->
  help_needed_count df
  = Ok (length (List.filter
                  (fun v => help_needed
                              (display_help_status (<[help_field := v]> ∅)))
                  col)).
Proof.
  intros Hcol Hall. rewrite (help_needed_count_spec df col Hcol).
  do 2 f_equal. apply List.filter_ext_in. intros v Hin.
  symmetry. apply card_of_cell.
  rewrite List.Forall_forall in Hall. apply Hall. exact Hin.
Qed.

Lemma help_count_agrees_with_cards_witness :
  help_cohort !! help_field
  = Some [VStr "无"; VStr "经济困难"; np_nan; VNone] /\
  Forall (fun v => v <> VNaN false) [VStr "无"; VStr "经济困难"; np_nan; VNone] /\
  help_needed_count help_cohort = Ok 1%nat.
Proof.
  assert (Hcol : help_cohort !! help_field
                 = Some [VStr "无"; VStr "经济困难"; np_nan; VNone])
    by reflexivity.
  assert (Hall : Forall (fun v => v <> VNaN false)
                        [VStr "无"; VStr "经济困难"; np_nan; VNone])
    by (repeat constructor; discriminate).
  split; [exact Hcol |]. split; [exact Hall |].
  rewrite (help_count_agrees_with_cards help_cohort _ Hcol Hall).
  reflexivity.
Defined.

Lemma filter_length_le {A : Type} (f : A -> bool) (l : list A) :
  (length (List.filter f l) <= length l)%nat.
Proof.
  induction l as [| x l IH]; cbn; [lia |].
  destruct (f x); cbn; lia.
Qed.

(** X18: the statistics of the overview tab are computed exactly when the
    cohort has the three columns they read; an exception is the [KeyError]
    of a column that the cohort does not have; and a count never exceeds
    the number of rows of the columns it is taken from. *)
Theorem cohort_statistics_need_three_columns (df : gmap string (list pyval)) :
  ((exists counts, cohort_statistics df = Ok counts) <->
   is_Some (df !! help_field) /\ is_Some (df !! "人民奖学金")
   /\ is_Some (df !! "助学金")) /\
  (forall e, cohort_statistics df = Raise e ->
             exists key, e = KeyError key /\ df !! key = None) /\
  (forall helped awarded h s g,
     cohort_statistics df = Ok (helped, awarded) ->
     df !! help_field = Some h -> df !! "人民奖学金" = Some s ->
     df !! "助学金" = Some g ->
     (helped <= length h)%nat /\ (awarded <= length s)%nat
     /\ (awarded <= length g)%nat).
Proof.
  unfold cohort_statistics, help_needed_count, award_count, df_getitem.
  destruct (df !! help_field) as [h |] eqn:Eh;
    [destruct (df !! "人民奖学金") as [s |] eqn:Es;
     [destruct (df !! "助学金") as [g |] eqn:Eg |] |];
    cbn; unfold mbind, result_bind; cbn.
  - split; [| split].
    + split; [intros _; repeat split; eexists; reflexivity
             | intros _; eexists; reflexivity].
    + intros e Habs. discriminate Habs.
    + intros helped awarded h' s' g' E Eh' Es' Eg'.
      injection E as <- <-. injection Eh' as <-. injection Es' as <-.
      injection Eg' as <-.
      split; [apply filter_length_le |].
      pose proof (filter_length_le
                    (fun p : pyval * pyval => pd_notna (fst p) || pd_notna (snd p))
                    (combine s g)) as Hle.
      rewrite length_combine in Hle. lia.
  - split; [| split].
    + split; [intros [c Habs]; discriminate Habs
             | intros (_ & _ & [x Hx]); discriminate Hx].
    + intros e E. injection E as <-. eexists. split; [reflexivity | exact Eg].
    + intros ? ? ? ? ? Habs. discriminate Habs.
  - split; [| split].
    + split; [intros [c Habs]; discriminate Habs
             | intros (_ & [x Hx] & _); discriminate Hx].
    + intros e E. injection E as <-. eexists. split; [reflexivity | exact Es].
    + intros ? ? ? ? ? Habs. discriminate Habs.
  - split; [| split].
    + split; [intros [c Habs]; discriminate Habs
             | intros ([x Hx] & _); discriminate Hx].
    + intros e E. injection E as <-. eexists. split; [reflexivity | exact Eh].
    + intros ? ? ? ? ? Habs. discriminate Habs.
Qed.

Lemma written_has_content (v w : pyval) :
  written v = Some w <-> w = v /\ has_content v.
Proof.
  unfold written, has_content.
  destruct v as [| b | q | s]; cbn.
  - split; [discriminate |].
    intros [_ [(s & E & _) | (q & E & _)]]; discriminate E.
  - split; [discriminate |].
    intros [_ [(s & E & _) | (q & E & _)]]; discriminate E.
  - rewrite andb_true_r. destruct (Qeq_bool q 0) eqn:Eq; cbn.
    + apply Qeq_bool_iff in Eq. split; [discriminate |].
      intros [_ [(s & E & _) | (q' & E & Hq)]]; [discriminate E |].
      injection E as <-. contradiction.
    + split.
      * intros E. injection E as <-. split; [reflexivity |].
        right. exists q. split; [reflexivity |].
        intros Hq. apply Qeq_bool_iff in Hq. congruence.
      * intros [-> _]. reflexivity.
  - rewrite andb_true_r. destruct (String.eqb s "") eqn:Es; cbn.
    + apply String.eqb_eq in Es. split; [discriminate |].
      intros [_ [(s' & E & Hs) | (q & E & _)]]; [| discriminate E].
      injection E as <-. contradiction.
    + split.
      * intros E. injection E as <-. split; [reflexivity |].
        left. exists s. split; [reflexivity |].
        apply String.eqb_neq. exact Es.
      * intros [-> _]. reflexivity.
Qed.

Lemma has_content_not_None : ~ has_content VNone.
Proof. intros [(s & E & _) | (q & E & _)]; discriminate E. Qed.

Lemma written_field (student_data : gmap string pyval) (key : string)
    (w : pyval) :
  written (get student_data key VNone) = Some w <->
  student_data !! key = Some w /\ has_content w.
Proof.
  rewrite written_has_content. unfold get.
  destruct (student_data !! key) as [v |].
  - split.
    + intros [-> Hc]. split; [reflexivity | exact Hc].
    + intros [E Hc]. injection E as ->. split; [reflexivity | exact Hc].
  - split.
    + intros [_ Hc]. exfalso. exact (has_content_not_None Hc).
    + intros [E _]. discriminate E.
Qed.

(** X19: the hardship card has its three rows in a fixed order, and a row
    shows the value of its field exactly when the record has the field and
    the value is a text that is not empty or a number that is not zero; in
    every other case (absent, [None], NaN, the empty text, 0) it shows "无". *)
Theorem poverty_rows_show_content (student_data : gmap string pyval) :
  exists o1 o2 o3,
    display_poverty_info student_data
    = [ ("第一学年困难等级", o1); ("第二学年困难等级", o2); ("困难保障人群", o3) ] /\
    (forall w, o1 = Some w <->
               student_data !! "第一学年困难等级" = Some w /\ has_content w) /\
    (forall w, o2 = Some w <->
               student_data !! "第二学年困难等级" = Some w /\ has_content w) /\
    (forall w, o3 = Some w <->
               student_data !! "困难保障人群" = Some w /\ has_content w).
Proof.
  exists (written (get student_data "第一学年困难等级" VNone)),
         (written (get student_data "第二学年困难等级" VNone)),
         (written (get student_data "困难保障人群" VNone)).
  split; [reflexivity |].
  split; [| split]; intros w; apply written_field.
Qed.

Lemma written_none_iff (v : pyval) :
  written v = None <-> py_truthy v && pd_notna v = false.
Proof.
  unfold written. destruct (py_truthy v && pd_notna v).
  - split; discriminate.
  - split; reflexivity.
Qed.

(** X20: the awards card has its three rows in a fixed order; a row shows
    a value exactly when that value is a text that is not empty or a number
    that is not zero; the grant row reads the field 助学金.1 only when the
    record has no field 助学金 at all; and the notice that the student has
    no award yet is shown exactly when all three rows show "无". *)
Theorem awards_rows_and_notice (student_data : gmap string pyval) :
  exists o1 o2 o3,
    award_rows (display_awards_info student_data)
    = [ ("人民奖学金", o1); ("助学金", o2); ("获得奖项", o3) ] /\
    (forall w, o1 = Some w <->
               student_data !! "人民奖学金" = Some w /\ has_content w) /\
    (forall w, o2 = Some w <->
               (student_data !! "助学金" = Some w \/
                (student_data !! "助学金" = None /\
                 student_data !! "助学金.1" = Some w)) /\ has_content w) /\
    (forall w, o3 = Some w <->
               student_data !! "奖项" = Some w /\ has_content w) /\
    (no_awards_notice (display_awards_info student_data) = true <->
     o1 = None /\ o2 = None /\ o3 = None).
Proof.
  exists (written (get student_data "人民奖学金" VNone)),
         (written (get student_data "助学金"
                     (get student_data "助学金.1" VNone))),
         (written (get student_data "奖项" VNone)).
  split; [reflexivity |].
  split; [intros w; apply written_field |].
  split; [| split; [intros w; apply written_field |]].
  - intros w. rewrite written_has_content. unfold get.
    destruct (student_data !! "助学金") as [v |].
    + split.
      * intros [-> Hc]. split; [left; reflexivity | exact Hc].
      * intros [[E | [E _]] Hc]; [| discriminate E].
        injection E as ->. split; [reflexivity | exact Hc].
    + destruct (student_data !! "助学金.1") as [v |].
      * split.
        -- intros [-> Hc]. split; [right; split; reflexivity | exact Hc].
        -- intros [[E | [_ E]] Hc]; [discriminate E |].
           injection E as ->. split; [reflexivity | exact Hc].
      * split.
        -- intros [_ Hc]. exfalso. exact (has_content_not_None Hc).
        -- intros [[E | [_ E]] _]; discriminate E.
  - unfold display_awards_info. cbn [no_awards_notice existsb fst snd].
    rewrite !written_none_iff, negb_true_iff, orb_false_r, !orb_false_iff.
    reflexivity.
Qed.

Lemma printable_difficulty (d : pyval) :
  py_truthy d && negb (py_eq d (VStr "未详细说明")) = true <->
  ((exists b, d = VNaN b) \/ has_content d) /\ d <> VStr "未详细说明".
Proof.
  unfold has_content. destruct d as [| b | q | s]; cbn.
  - split; [discriminate |].
    intros [[[b Hb] | [(s & Hs & _) | (q & Hq & _)]] _]; discriminate.
  - split; [| reflexivity]. intros _. split; [eauto | discriminate].
  - rewrite andb_true_r, negb_true_iff. split.
    + intros Eq. split; [| discriminate]. right. right. exists q.
      split; [reflexivity |]. intros Hq. apply Qeq_bool_iff in Hq. congruence.
    + intros [[[b Hb] | [(s & Hs & _) | (q' & Hq & Hne)]] _];
        try discriminate.
      injection Hq as <-. apply not_true_iff_false. intros Hq.
      apply Hne. apply Qeq_bool_iff. exact Hq.
  - rewrite andb_true_iff, !negb_true_iff. split.
    + intros [Es Ep]. split.
      * right. left. exists s. split; [reflexivity |].
        apply String.eqb_neq. exact Es.
      * intros E. injection E as ->. rewrite String.eqb_refl in Ep.
        discriminate Ep.
    + intros [[[b Hb] | [(s' & Hs & Hne) | (q & Hq & _)]] Hp];
        try discriminate.
      injection Hs as <-. split.
      * apply String.eqb_neq. exact Hne.
      * apply String.eqb_neq. intros ->. apply Hp. reflexivity.
Qed.

(** X21: the help card prints the difficulty exactly when the student is
    classified as needing help, the record has the field 有何困难, and its
    value is a NaN, a number that is not zero, or a text that is neither
    empty nor the placeholder 未详细说明.  So a cell left empty in the sheet
    (a NaN) is printed as a difficulty, where the other cards write "无". *)
Theorem difficulty_is_printed_iff (student_data : gmap string pyval)
    (d : pyval) :
  difficulty_shown (display_help_status student_data) = Some d <->
  help_needed (display_help_status student_data) = true /\
  student_data !! "有何困难" = Some d /\
  ((exists b, d = VNaN b) \/ has_content d) /\
  d <> VStr "未详细说明".
Proof.
  unfold display_help_status, get. cbn [difficulty_shown help_needed].
  destruct (negb (py_in match student_data !! help_field with
                        | Some v => v
                        | None => VNone
                        end [VNone; VStr "无"; np_nan])).
  - rewrite andb_true_l.
    destruct (student_data !! "有何困难") as [v |].
    + destruct (py_truthy v && negb (py_eq v (VStr "未详细说明"))) eqn:Ev.
      * apply printable_difficulty in Ev. split.
        -- intros E. injection E as <-. split; [reflexivity |].
           split; [reflexivity | exact Ev].
        -- intros (_ & E & _). exact E.
      * split; [discriminate |].
        intros (_ & E & Hd). injection E as <-.
        apply printable_difficulty in Hd. congruence.
    + cbn. split; [discriminate |]. intros (_ & E & _). discriminate E.
  - cbn [andb]. split; [discriminate |]. intros (E & _). discriminate E.
Qed.

(** X22: the help card classifies a student as not needing help exactly
    when the record has no field 有无需要学院协助解决的困难, or the field is
    [None], the [np.nan] object itself or the text "无"; every other cell,
    a number, any other text and any other NaN, is classified as needing
    help. *)
Theorem help_card_says_no_help_iff (student_data : gmap string pyval) :
  help_needed (display_help_status student_data) = false <->
  student_data !! help_field = None \/
  student_data !! help_field = Some VNone \/
  student_data !! help_field = Some np_nan \/
  student_data !! help_field = Some (VStr "无").
Proof.
  unfold display_help_status, get. cbn [help_needed].
  destruct (student_data !! help_field) as [v |].
  - destruct v as [| [|] | q | s]; cbn.
    + split; [intros _; right; left; reflexivity | reflexivity].
    + split; [intros _; right; right; left; reflexivity | reflexivity].
    + split; [discriminate |].
      intros [E | [E | [E | E]]]; discriminate E.
    + split; [discriminate |].
      intros [E | [E | [E | E]]]; discriminate E.
    + rewrite orb_false_r. rewrite negb_false_iff, String.eqb_eq.
      split.
      * intros ->. right; right; right. reflexivity.
      * intros [E | [E | [E | E]]]; try discriminate E.
        injection E as ->. reflexivity.
  - cbn. split; [intros _; left; reflexivity | reflexivity].
Qed.

End CardsFurther.

(** ** The cohort means in the two charts *)

Section CohortMeans.
Context `{TextNumbers}.
Local Open Scope Q_scope.

Lemma numeric_entries_finite_values (col : list pyval) :
  numeric_entries col = finite_values (List.map to_numeric col).
Proof.
  unfold numeric_entries, finite_values.
  induction col as [| v col IH]; [reflexivity |].
  cbn. rewrite IH. destruct (to_numeric v); reflexivity.
Qed.

Lemma Qsum_between (lo hi : Q) (l : list Q) :
  Forall (fun q => lo <= q <= hi) l ->
  lo * Qlen l <= Qsum l <= hi * Qlen l.
Proof.
  induction 1 as [| q l [Hlo Hhi] Hrest IH].
  - change (Qlen (@nil Q)) with 0. cbn. lra.
  - rewrite Qlen_cons, Qsum_cons. lra.
Qed.

Lemma series_mean_is_arithmetic_mean (s : list num) :
  arithmetic_mean_of (finite_values s) (series_mean s).
Proof.
  unfold arithmetic_mean_of.
  destruct (finite_values s) as [| q qs] eqn:E.
  - apply series_mean_none. exact E.
  - destruct (series_mean_some s) as (m & Em & Hm); [rewrite E; discriminate |].
    rewrite E in Hm. exists m. split; [exact Em |]. split; [exact Hm |].
    intros lo hi Hall.
    pose proof (Qsum_between lo hi (q :: qs) Hall) as [H1 H2].
    assert (Hpos : 0 < Qlen (q :: qs)) by (apply Qlen_pos; cbn; lia).
    rewrite <- Hm in H1, H2. split.
    + destruct (Qlt_le_dec m lo) as [Hlt | Hge]; [| exact Hge].
      exfalso. assert (m * Qlen (q :: qs) < lo * Qlen (q :: qs)) by nra. lra.
    + destruct (Qlt_le_dec hi m) as [Hlt | Hge]; [| exact Hge].
      exfalso. assert (hi * Qlen (q :: qs) < m * Qlen (q :: qs)) by nra. lra.
Qed.

(** What the charts compute for a column is its mean as specified. *)
Lemma class_mean_or_is_cohort_mean (df : gmap string (list pyval))
    (col : string) (absent : num) :
  cohort_mean df col absent (class_mean_or df col absent).
Proof.
  unfold cohort_mean, class_mean_or, column_mean.
  destruct (df !! col) as [c |]; [| reflexivity].
  rewrite numeric_entries_finite_values.
  apply series_mean_is_arithmetic_mean.
Qed.

Lemma mean_is_normalised (a : num) (lo hi : Q) :
  ~ lo == hi -> exists n, normalised_mean a lo hi n.
Proof.
  intros Hne.
  destruct (normalize_value_percent (of_num a) lo hi (no_text_of_num a) Hne)
    as (p & E & _).
  exists (Fin p). split; [exact E |].
  intros ->. cbn in E. injection E as <-. reflexivity.
Qed.

Lemma class_trace_of_gpa_chart (student_data : gmap string pyval)
    (df : gmap string (list pyval)) :
  let st := with_fallback (collect_gpas student_data) in
  data (gpa_chart_state student_data (Some df)) !! 1%nat
  = Some {| name := "班级平均";
            xs := semesters st;
            ys := List.map
                    (fun sem_num =>
                       class_mean_or df (sem_num +:+ "绩点") (Fin 3.0))
                    (semesters st) |}.
Proof.
  intros st. unfold gpa_chart_state. fold st.
  assert (Hst : data st = []).
  { subst st. unfold with_fallback.
    destruct (use_default _); cbn; apply collect_gpas_data. }
  unfold add_trend.
  destruct (Nat.leb 2 _); cbn; rewrite Hst; reflexivity.
Qed.

(** C4, as the program has it: the mean that a chart shows for a column
    of the cohort is the arithmetic mean of the entries that are numbers
    after coercion, and NaN, not 0, when there is no such entry.  In the
    radar chart a column that the cohort does not have counts as 0 (for
    the extra points: as the mean of 23-24附加分, and as 0 when that is
    absent too), the raw means are the hover data of the cohort's trace,
    and each is normalised against the bounds of its category, a NaN
    to 0.  In the grade-point chart the cohort's trace has one mean per
    charted label, 3.0 for a period whose column the cohort does not
    have, and a NaN is kept as it is. *)
Theorem cohort_means_in_the_charts (student_data : gmap string pyval)
    (df : gmap string (list pyval)) :
  (exists a0 a1 a2 a3 a4 d3 n0 n1 n2 n3 n4,
     cohort_mean df "德育" (Fin 0) a0 /\
     cohort_mean df "智育" (Fin 0) a1 /\
     cohort_mean df "体测成绩" (Fin 0) a2 /\
     cohort_mean df "23-24附加分" (Fin 0) d3 /\
     cohort_mean df "附加分" d3 a3 /\
     cohort_mean df "测评总分" (Fin 0) a4 /\
     normalised_mean a0 12 15 n0 /\
     normalised_mean a1 50 100 n1 /\
     normalised_mean a2 60 120 n2 /\
     normalised_mean a3 (-1) 6 n3 /\
     normalised_mean a4 50 110 n4 /\
     forall traces,
       create_radar_chart student_data (Some df) = Ok traces ->
       exists personal,
         traces
         = [ {| pname := "班级平均";
                r := [n0; n1; n2; n3; n4; n0];
                theta := ["德育"; "智育"; "体测"; "附加分"; "总分"; "德育"];
                customdata := [of_num a0; of_num a1; of_num a2; of_num a3;
                               of_num a4; of_num a0] |};
             personal ]) /\
  (exists fig class_avg_gpas,
     create_gpa_chart student_data (Some df) = Ok fig /\
     fig_data fig !! 1%nat
     = Some {| name := "班级平均";
               xs := semesters (with_fallback (collect_gpas student_data));
               ys := class_avg_gpas |} /\
     Forall2 (fun sem_num y =>
                cohort_mean df (sem_num +:+ "绩点") (Fin 3.0) y)
             (semesters (with_fallback (collect_gpas student_data)))
             class_avg_gpas).
Proof.
  split.
  - destruct (mean_is_normalised (class_mean_or df "德育" (Fin 0)) 12 15)
      as [n0 H0]; [discriminate |].
    destruct (mean_is_normalised (class_mean_or df "智育" (Fin 0)) 50 100)
      as [n1 H1]; [discriminate |].
    destruct (mean_is_normalised (class_mean_or df "体测成绩" (Fin 0)) 60 120)
      as [n2 H2]; [discriminate |].
    destruct (mean_is_normalised
                (class_mean_or df "附加分"
                   (class_mean_or df "23-24附加分" (Fin 0))) (-1) 6)
      as [n3 H3]; [discriminate |].
    destruct (mean_is_normalised (class_mean_or df "测评总分" (Fin 0)) 50 110)
      as [n4 H4]; [discriminate |].
    eexists _, _, _, _, _, _, n0, n1, n2, n3, n4.
    do 6 (split; [apply class_mean_or_is_cohort_mean |]).
    do 5 (split; [eassumption |]).
    intros traces Hok. unfold create_radar_chart in Hok.
    destruct (normalize_profile (actual_values student_data)) as [ns | e];
      [| discriminate Hok].
    unfold class_avg in Hok. cbv zeta in Hok. cbn [List.map] in Hok.
    unfold normalize_profile at 1 in Hok.
    rewrite (proj1 H0), (proj1 H1), (proj1 H2), (proj1 H3), (proj1 H4) in Hok.
    cbn in Hok. injection Hok as <-.
    eexists. reflexivity.
  - destruct (create_gpa_chart_returns student_data (Some df)) as [first Efig].
    eexists _, _. split; [exact Efig |]. cbn [fig_data].
    split; [apply class_trace_of_gpa_chart |].
    induction (semesters (with_fallback (collect_gpas student_data)))
      as [| sem l IH]; cbn; constructor.
    + apply class_mean_or_is_cohort_mean.
    + exact IH.
Qed.

End CohortMeans.

Lemma cohort_means_in_the_charts_witness :
  exists (fig : gpa_figure) (m : Q),
    @create_gpa_chart decimal_text named_student (Some mixed_cohort) = Ok fig /\
    fig_data fig !! 1%nat
    = Some {| name := "班级平均";
              xs := ["第一学期"; "第二学期"; "第三学期"];
              ys := [Fin m; Fin 3.0; Fin 3.0] |} /\
    (m == 3.2)%Q.
Proof.
  destruct (@cohort_means_in_the_charts decimal_text named_student mixed_cohort)
    as [_ (fig & ys & Efig & Etrace & Hall)].
  change (semesters (with_fallback (@collect_gpas decimal_text named_student)))
    with ["第一学期"; "第二学期"; "第三学期"] in Etrace, Hall.
  inversion Hall as [| s1 y1 l1 ys1 Hy1 Hrest1]; subst.
  inversion Hrest1 as [| s2 y2 l2 ys2 Hy2 Hrest2]; subst.
  inversion Hrest2 as [| s3 y3 l3 ys3 Hy3 Hrest3]; subst.
  inversion Hrest3; subst.
  change (y2 = Fin 3.0) in Hy2. change (y3 = Fin 3.0) in Hy3. subst y2 y3.
  change (exists m, y1 = Fin m /\
                    (m * Qlen [3.0; 3.4] == Qsum [3.0; 3.4])%Q /\
                    forall lo hi, Forall (fun q => lo <= q <= hi)%Q [3.0; 3.4]%Q ->
                                  (lo <= m <= hi)%Q) in Hy1.
  destruct Hy1 as (m & -> & Hm & _).
  exists fig, m. split; [exact Efig |]. split; [exact Etrace |].
  change (Qlen [3.0%Q; 3.4%Q]) with 2%Q in Hm.
  change (Qsum [3.0%Q; 3.4%Q]) with (3.0 + (3.4 + 0))%Q in Hm.
  lra.
Defined.
